(** * A shallow embedding of the NRF24L01 driver (src/lib/nrf24l01/nrf24_driver.c)

    The driver talks to the chip only through SPI transactions.  The model
    threads one state through every call: the global [nrf_driver] struct, the
    trace of bus and pin events issued so far (newest first), and the chip's
    answers to the transfers still to come.  A transfer consumes one answer;
    when no answer is left the model stops with [None] (the run is not
    modelled beyond that point). *)

From Stdlib Require Import ZArith List Bool Lia.
Import ListNotations.
Open Scope Z_scope.

(** ** Constants of device_config.h and nrf24_driver.h *)

Definition R_REGISTER : Z := 0x00.
Definition W_REGISTER : Z := 0x20.
Definition NOP : Z := 0xFF.
Definition R_RX_PL_WID : Z := 0x60.
Definition R_RX_PAYLOAD : Z := 0x61.
Definition W_TX_PAYLOAD : Z := 0xA0.
Definition FLUSH_TX : Z := 0xE1.
Definition FLUSH_RX : Z := 0xE2.

Definition CONFIG : Z := 0x00.
Definition EN_AA : Z := 0x01.
Definition EN_RXADDR : Z := 0x02.
Definition SETUP_AW : Z := 0x03.
Definition SETUP_RETR : Z := 0x04.
Definition RF_CH : Z := 0x05.
Definition RF_SETUP : Z := 0x06.
Definition STATUS : Z := 0x07.
Definition RX_ADDR_P0 : Z := 0x0A.
Definition RX_ADDR_P1 : Z := 0x0B.
Definition RX_ADDR_P2 : Z := 0x0C.
Definition RX_ADDR_P3 : Z := 0x0D.
Definition RX_ADDR_P4 : Z := 0x0E.
Definition RX_ADDR_P5 : Z := 0x0F.
Definition TX_ADDR : Z := 0x10.
Definition RX_PW_P0 : Z := 0x11.
Definition RX_PW_P1 : Z := 0x12.
Definition RX_PW_P2 : Z := 0x13.
Definition RX_PW_P3 : Z := 0x14.
Definition RX_PW_P4 : Z := 0x15.
Definition RX_PW_P5 : Z := 0x16.
Definition DYNPD : Z := 0x1C.

(** Modelled from the spec: the [FEATURE] register and its bit positions are
    used by the driver but declared in no header of the sources; the spec's
    register map (0x00-0x1D) ends with it, and the chip's datasheet places
    EN_DPL at bit 2 and EN_DYN_ACK at bit 0. *)
Definition FEATURE : Z := 0x1D.
Definition FEATURE_EN_DYN_ACK : Z := 0.
Definition FEATURE_EN_DPL : Z := 2.

(** Modelled from the spec: the dynamic-payload enumerators are declared in no
    header of the sources.  The driver tests [if (dyn_payloads)] for
    "enabled", so DYNPD_DISABLE is 0 and DYNPD_ENABLE sets every pipe's bit. *)
Definition DYNPD_DISABLE : Z := 0x00.
Definition DYNPD_ENABLE : Z := 0x3F.

Definition REGISTER_MASK : Z := 0x1F.
Definition STATUS_RX_P_NO_MASK : Z := 0x07.
Definition STATUS_INTERRUPT_MASK : Z := 0x70.
Definition RF_SETUP_RF_PWR_MASK : Z := 0x06.
Definition RF_SETUP_RF_DR_MASK : Z := 0x28.

Definition CONFIG_PRIM_RX : Z := 0.
Definition STATUS_RX_P_NO : Z := 1.
Definition STATUS_MAX_RT : Z := 4.
Definition STATUS_TX_DS : Z := 5.
Definition STATUS_RX_DR : Z := 6.
Definition SETUP_RETR_ARC : Z := 0.
Definition SETUP_RETR_ARD : Z := 4.
Definition RF_SETUP_RF_PWR : Z := 1.
Definition RF_SETUP_RF_DR_HIGH : Z := 3.
Definition RF_SETUP_RF_DR_LOW : Z := 5.

Definition ENAA_ALL : Z := 0x3F.
Definition SET_BIT : Z := 1.

Definition AW_3_BYTES : Z := 1.
Definition AW_4_BYTES : Z := 2.
Definition AW_5_BYTES : Z := 3.

Definition ARD_250US : Z := Z.shiftl 0 SETUP_RETR_ARD.
Definition ARD_500US : Z := Z.shiftl 1 SETUP_RETR_ARD.
Definition ARD_750US : Z := Z.shiftl 2 SETUP_RETR_ARD.
Definition ARD_1000US : Z := Z.shiftl 3 SETUP_RETR_ARD.
Definition ARC_10RT : Z := Z.shiftl 10 SETUP_RETR_ARC.
Definition ARC_15RT : Z := Z.shiftl 15 SETUP_RETR_ARC.

Definition RF_DR_1MBPS : Z :=
  Z.lor (Z.shiftl 0 RF_SETUP_RF_DR_LOW) (Z.shiftl 0 RF_SETUP_RF_DR_HIGH).
Definition RF_DR_2MBPS : Z :=
  Z.lor (Z.shiftl 0 RF_SETUP_RF_DR_LOW) (Z.shiftl 1 RF_SETUP_RF_DR_HIGH).
Definition RF_DR_250KBPS : Z :=
  Z.lor (Z.shiftl 1 RF_SETUP_RF_DR_LOW) (Z.shiftl 0 RF_SETUP_RF_DR_HIGH).

Definition RF_PWR_NEG_18DBM : Z := Z.shiftl 0 RF_SETUP_RF_PWR.
Definition RF_PWR_NEG_12DBM : Z := Z.shiftl 1 RF_SETUP_RF_PWR.
Definition RF_PWR_NEG_6DBM : Z := Z.shiftl 2 RF_SETUP_RF_PWR.
Definition RF_PWR_0DBM : Z := Z.shiftl 3 RF_SETUP_RF_PWR.

(** [number_of_bytes_t] and [data_pipe_t] *)
Definition ZERO_BYTES : Z := 0.
Definition ONE_BYTE : nat := 1.
Definition TWO_BYTES : nat := 2.
Definition FIVE_BYTES : Z := 5.
Definition MAX_BYTES : Z := 32.
Definition DATA_PIPE_0 : Z := 0.
Definition DATA_PIPE_2 : Z := 2.
Definition ALL_DATA_PIPES : Z := 6.

(** A [uint8_t] assignment keeps the low byte. *)
Definition u8 (z : Z) : Z := Z.land z 255.

(** ** Types *)

(** Modelled from the spec: [fn_status_t] is declared in no header of the
    sources; its values are those the driver's doc comments give
    (ERROR (0), PIN_MNGR_OK (1), SPI_MNGR_OK (2), NRF_MNGR_OK (3)). *)
Inductive fn_status_t := ERROR | PIN_MNGR_OK | SPI_MNGR_OK | NRF_MNGR_OK.

Definition fn_status_eqb (a b : fn_status_t) : bool :=
  match a, b with
  | ERROR, ERROR | PIN_MNGR_OK, PIN_MNGR_OK
  | SPI_MNGR_OK, SPI_MNGR_OK | NRF_MNGR_OK, NRF_MNGR_OK => true
  | _, _ => false
  end.

(** C truth value of a status ([if (status)]): only ERROR (0) is false. *)
Definition truthy (s : fn_status_t) : bool :=
  match s with ERROR => false | _ => true end.

(** [fn_status_irq_t] (error_manager.h). *)
Inductive fn_status_irq_t := NONE_ASSERTED | RX_DR_ASSERTED | TX_DS_ASSERTED | MAX_RT_ASSERTED.

Definition irq_eqb (a b : fn_status_irq_t) : bool :=
  match a, b with
  | NONE_ASSERTED, NONE_ASSERTED | RX_DR_ASSERTED, RX_DR_ASSERTED
  | TX_DS_ASSERTED, TX_DS_ASSERTED | MAX_RT_ASSERTED, MAX_RT_ASSERTED => true
  | _, _ => false
  end.

Inductive device_mode_t := STANDBY_I | STANDBY_II | TX_MODE | RX_MODE.

Definition is_rx_mode (m : device_mode_t) : bool :=
  match m with RX_MODE => true | _ => false end.

(** [nrf_manager_t]: the enum-typed fields are held as integers, as C holds them. *)
Record nrf_manager_t := {
  address_width : Z;
  dyn_payloads : Z;
  retr_delay : Z;
  retr_count : Z;
  data_rate : Z;
  power : Z;
  channel : Z
}.

Definition set_channel (c : nrf_manager_t) (ch : Z) : nrf_manager_t :=
  {| address_width := address_width c; dyn_payloads := dyn_payloads c;
     retr_delay := retr_delay c; retr_count := retr_count c;
     data_rate := data_rate c; power := power c; channel := ch |}.

Definition set_dyn_payloads (c : nrf_manager_t) (d : Z) : nrf_manager_t :=
  {| address_width := address_width c; dyn_payloads := d;
     retr_delay := retr_delay c; retr_count := retr_count c;
     data_rate := data_rate c; power := power c; channel := channel c |}.

(** [nrf_driver_t], without the pin and SPI-instance fields, which carry no
    data the claims depend on. *)
Record nrf_driver_t := {
  user_config : nrf_manager_t;
  address_width_bytes : nat;
  mode : device_mode_t;
  is_rx_addr_p0 : bool;
  rx_addr_p0 : list Z
}.

(** The initial value of the global [nrf_driver]. *)
Definition default_config : nrf_manager_t :=
  {| address_width := AW_5_BYTES; dyn_payloads := DYNPD_DISABLE;
     retr_delay := ARD_500US; retr_count := ARC_10RT;
     data_rate := RF_DR_1MBPS; power := RF_PWR_0DBM; channel := 110 |}.

Definition nrf_driver_init : nrf_driver_t :=
  {| user_config := default_config; address_width_bytes := 5%nat;
     mode := STANDBY_I; is_rx_addr_p0 := false; rx_addr_p0 := [0; 0; 0; 0; 0] |}.

(** Bus and pin events.  [Xfer tx] is one [spi_manager_transfer] bracketed by
    CSN low/high; [WriteOnly tx] is one [spi_write_blocking]. *)
Inductive event :=
| Xfer (tx : list Z)
| WriteOnly (tx : list Z)
| CE (high : bool)
| SleepMs (n : Z)
| SleepUs (n : Z)
| SpiInit
| SpiDeinit.

(** The chip's answer to one transfer: whether every byte was transferred,
    and the bytes clocked back ([rx_buffer]). *)
Record resp := { r_ok : bool; r_rx : list Z }.

Record st := { drv : nrf_driver_t; trace : list event; bus : list resp }.

(** ** The state monad *)

Definition M (A : Type) := st -> option (A * st).

Definition ret {A} (a : A) : M A := fun s => Some (a, s).
Definition bind {A B} (m : M A) (f : A -> M B) : M B :=
  fun s => match m s with Some (a, s') => f a s' | None => None end.

Notation "x <- m ;; k" := (bind m (fun x => k)) (at level 61, m at next level, right associativity).
Notation "m ;; k" := (bind m (fun _ => k)) (at level 61, right associativity).

Definition emit (e : event) : M unit :=
  fun s => Some (tt, {| drv := drv s; trace := e :: trace s; bus := bus s |}).

Definition get_drv : M nrf_driver_t := fun s => Some (drv s, s).

(** An assignment to fields of the global [nrf_driver]. *)
Definition modify_drv (f : nrf_driver_t -> nrf_driver_t) : M unit :=
  fun s => Some (tt, {| drv := f (drv s); trace := trace s; bus := bus s |}).

Definition stop {A} : M A := fun _ => None.

(** [spi_manager_transfer]: SPI_MNGR_OK when every byte was transferred. *)
Definition spi_manager_transfer (tx : list Z) : M (fn_status_t * list Z) :=
  fun s => match bus s with
           | [] => None
           | r :: rest =>
               Some ((if r_ok r then SPI_MNGR_OK else ERROR, r_rx r),
                     {| drv := drv s; trace := Xfer tx :: trace s; bus := rest |})
           end.

Definition with_mode (d : nrf_driver_t) (m : device_mode_t) : nrf_driver_t :=
  {| user_config := user_config d; address_width_bytes := address_width_bytes d;
     mode := m; is_rx_addr_p0 := is_rx_addr_p0 d; rx_addr_p0 := rx_addr_p0 d |}.

Definition with_config (d : nrf_driver_t) (c : nrf_manager_t) : nrf_driver_t :=
  {| user_config := c; address_width_bytes := address_width_bytes d;
     mode := mode d; is_rx_addr_p0 := is_rx_addr_p0 d; rx_addr_p0 := rx_addr_p0 d |}.

Definition set_mode (m : device_mode_t) : M unit :=
  modify_drv (fun d => with_mode d m).

(** ** Static utility functions *)

(** [w_register]: header byte with the 3 MSB forced to 001, then [size]
    bytes of the buffer. *)
Definition w_register (reg : Z) (buffer : list Z) (size : nat) : M fn_status_t :=
  let reg' := Z.lor (Z.land REGISTER_MASK reg) W_REGISTER in
  r <- spi_manager_transfer (reg' :: firstn size buffer) ;;
  ret (fst r).

(** [r_register_byte]: rx_buffer[1] holds the register value. *)
Definition r_register_byte (reg : Z) : M Z :=
  r <- spi_manager_transfer [reg; NOP] ;;
  ret (u8 (nth 1 (snd r) 0)).

(** [flush_tx_fifo] / [flush_rx_fifo]. *)
Definition flush_tx_fifo : M unit :=
  emit (SleepUs 2) ;; emit (WriteOnly [FLUSH_TX]) ;; emit (SleepUs 2).

Definition flush_rx_fifo : M unit :=
  emit (SleepUs 2) ;; emit (WriteOnly [FLUSH_RX]) ;; emit (SleepUs 2).

(** The values a C [for] loop with a constant step visits, from [lo] up to [hi]. *)
Definition for_range (lo hi step : Z) : list Z :=
  map (fun k => lo + step * Z.of_nat k) (seq 0 (Z.to_nat ((hi - lo) / step + 1))).

Definition b2z (b : bool) : Z := if b then 1 else 0.

(** [validate_config]: counts the valid members. *)
Definition validate_config (c : nrf_manager_t) : fn_status_t :=
  let v_aw := b2z ((AW_3_BYTES <=? address_width c) && (address_width c <=? AW_5_BYTES)) in
  let v_ch := b2z ((2 <=? channel c) && (channel c <=? 125)) in
  let v_dr := b2z ((data_rate c =? RF_DR_1MBPS) || (data_rate c =? RF_DR_2MBPS)
                   || (data_rate c =? RF_DR_250KBPS)) in
  let v_dyn := b2z ((dyn_payloads c =? DYNPD_ENABLE) || (dyn_payloads c =? DYNPD_DISABLE)) in
  let v_pw := Z.of_nat (length (filter (fun p => power c =? p)
                                       (for_range RF_PWR_NEG_18DBM RF_PWR_0DBM 2))) in
  let v_rc := b2z (retr_count c <=? ARC_15RT) in
  let v_rd := Z.of_nat (length (filter (fun d => retr_delay c =? d)
                                       (for_range ARD_250US ARD_1000US 16))) in
  let valid_members := v_aw + v_ch + v_dr + v_dyn + v_pw + v_rc + v_rd in
  if valid_members =? 7 then NRF_MNGR_OK else ERROR.

(** [check_status_irq]: read STATUS, clear every asserted interrupt bit by
    writing 1 back, and report the last one tested.  [has_rx_p_no] tells
    whether the caller passed a non-NULL [rx_p_no]; the pipe number stored
    through it is returned. *)
Definition check_status_irq (has_rx_p_no : bool) : M (fn_status_irq_t * option Z) :=
  status <- r_register_byte STATUS ;;
  let rx_dr := Z.land (Z.shiftr status STATUS_RX_DR) SET_BIT in
  let tx_ds := Z.land (Z.shiftr status STATUS_TX_DS) SET_BIT in
  let max_rt := Z.land (Z.shiftr status STATUS_MAX_RT) SET_BIT in
  a <- (if rx_dr =? 0 then ret (NONE_ASSERTED, None)
        else _ <- w_register STATUS [Z.shiftl SET_BIT STATUS_RX_DR] ONE_BYTE ;;
             ret (RX_DR_ASSERTED,
                  if has_rx_p_no
                  then Some (Z.land (Z.shiftr status STATUS_RX_P_NO) STATUS_RX_P_NO_MASK)
                  else None)) ;;
  let '(asserted_bit, rx_p_no) := a in
  asserted_bit <- (if tx_ds =? 0 then ret asserted_bit
                   else _ <- w_register STATUS [Z.shiftl SET_BIT STATUS_TX_DS] ONE_BYTE ;;
                        ret TX_DS_ASSERTED) ;;
  asserted_bit <- (if max_rt =? 0 then ret asserted_bit
                   else _ <- w_register STATUS [Z.shiftl SET_BIT STATUS_MAX_RT] ONE_BYTE ;;
                        flush_tx_fifo ;;
                        ret MAX_RT_ASSERTED) ;;
  ret (asserted_bit, rx_p_no).

(** A register loop that stops at the first failed write
    ([if (status == ERROR) break] / [if (!status) break]). *)
Fixpoint w_each (regs : list Z) (buffer : list Z) (size : nat) (status : fn_status_t)
  : M fn_status_t :=
  match regs with
  | [] => ret status
  | r :: rs =>
      status <- w_register r buffer size ;;
      if truthy status then w_each rs buffer size status else ret status
  end.

(** The register loop of [nrf_driver_initialise]: one byte per register,
    the oscillator start-up delay after CONFIG, break on error. *)
Fixpoint init_writes (l : list (Z * Z)) (status : fn_status_t) : M fn_status_t :=
  match l with
  | [] => ret status
  | (reg, v) :: rest =>
      status <- w_register reg [v] ONE_BYTE ;;
      (if reg =? CONFIG then emit (SleepMs 5) else ret tt) ;;
      if fn_status_eqb status ERROR then ret status else init_writes rest status
  end.

(** [memcpy(dst, src, n)] on a fixed-size array. *)
Definition memcpy (dst src : list Z) (n : nat) : list Z := firstn n src ++ skipn n dst.

(** ** Public driver functions *)

(** The nine-entry [register_list] of [nrf_driver_initialise]. *)
Definition register_list (c : nrf_manager_t) : list (Z * Z) :=
  [(CONFIG, 0x0E);
   (EN_AA, ENAA_ALL);
   (SETUP_AW, u8 (address_width c));
   (SETUP_RETR, u8 (Z.lor (retr_count c) (retr_delay c)));
   (RF_CH, u8 (channel c));
   (RF_SETUP, u8 (Z.lor (data_rate c) (power c)));
   (FEATURE, Z.lor (Z.shiftl SET_BIT FEATURE_EN_DPL) (Z.shiftl SET_BIT FEATURE_EN_DYN_ACK));
   (DYNPD, u8 (dyn_payloads c));
   (STATUS, STATUS_INTERRUPT_MASK)].

(** [nrf_driver_initialise]; [None] is a NULL [user_config]. *)
Definition nrf_driver_initialise (cfg : option nrf_manager_t) : M fn_status_t :=
  emit SpiInit ;;
  emit (SleepMs 100) ;;
  emit (CE false) ;;
  emit (SleepMs 1) ;;
  status <- (match cfg with
             | None => ret ERROR
             | Some c =>
                 let status := validate_config c in
                 if fn_status_eqb status NRF_MNGR_OK then
                   modify_drv (fun d =>
                            {| user_config := c;
                              address_width_bytes :=
                                if address_width c + 2 <=? FIVE_BYTES
                                then Z.to_nat (address_width c + 2) else 5%nat;
                              mode := mode d; is_rx_addr_p0 := is_rx_addr_p0 d;
                              rx_addr_p0 := rx_addr_p0 d |}) ;;
                   ret status
                 else ret status
             end) ;;
  status <- (if fn_status_eqb status NRF_MNGR_OK then
               d <- get_drv ;;
               status <- init_writes (firstn 8 (register_list (user_config d))) status ;;
               flush_tx_fifo ;;
               flush_rx_fifo ;;
               ret status
             else ret status) ;;
  emit SpiDeinit ;;
  ret status.

(** [nrf_driver_tx_destination]: RX_ADDR_P0 then TX_ADDR. *)
Definition nrf_driver_tx_destination (buffer : list Z) : M fn_status_t :=
  emit SpiInit ;;
  d <- get_drv ;;
  status <- w_each [RX_ADDR_P0; TX_ADDR] buffer (address_width_bytes d) ERROR ;;
  emit SpiDeinit ;;
  ret status.

Definition rx_registers : list Z :=
  [RX_ADDR_P0; RX_ADDR_P1; RX_ADDR_P2; RX_ADDR_P3; RX_ADDR_P4; RX_ADDR_P5].

(** [nrf_driver_rx_destination]; [data_pipe_t] values are non-negative. *)
Definition nrf_driver_rx_destination (data_pipe : Z) (buffer : list Z) : M fn_status_t :=
  emit SpiInit ;;
  (if data_pipe =? DATA_PIPE_0 then
     modify_drv (fun d =>
       {| user_config := user_config d;
          address_width_bytes := address_width_bytes d;
          mode := mode d; is_rx_addr_p0 := true;
          rx_addr_p0 := memcpy (rx_addr_p0 d) buffer (address_width_bytes d) |})
   else ret tt) ;;
  status <- (if data_pipe <? ALL_DATA_PIPES then
               d <- get_drv ;;
               let reg := nth (Z.to_nat data_pipe) rx_registers 0 in
               status <- (if data_pipe <? DATA_PIPE_2
                          then w_register reg buffer (address_width_bytes d)
                          else w_register reg buffer ONE_BYTE) ;;
               en_rxaddr <- r_register_byte EN_RXADDR ;;
               if negb (Z.land (Z.shiftr en_rxaddr data_pipe) SET_BIT =? SET_BIT) then
                 w_register EN_RXADDR [u8 (Z.lor en_rxaddr (Z.shiftl SET_BIT data_pipe))] ONE_BYTE
               else ret status
             else ret ERROR) ;;
  emit SpiDeinit ;;
  ret status.

Definition rx_pw_registers : list Z :=
  [RX_PW_P0; RX_PW_P1; RX_PW_P2; RX_PW_P3; RX_PW_P4; RX_PW_P5].

(** [nrf_driver_payload_size].  The register is written from [&size], whose
    first byte (little-endian) is the low byte of [size].  A pipe index
    above ALL_DATA_PIPES reads past [rx_pw_registers], undefined behaviour in
    C: the model stops there. *)
Definition nrf_driver_payload_size (data_pipe : Z) (size : Z) : M fn_status_t :=
  emit SpiInit ;;
  let status := if (ZERO_BYTES <? size) && (size <=? MAX_BYTES) then NRF_MNGR_OK else ERROR in
  status <- (if fn_status_eqb status NRF_MNGR_OK then
               if data_pipe =? ALL_DATA_PIPES
               then w_each rx_pw_registers [u8 size] ONE_BYTE status
               else if (0 <=? data_pipe) && (data_pipe <? ALL_DATA_PIPES)
               then w_register (nth (Z.to_nat data_pipe) rx_pw_registers 0) [u8 size] ONE_BYTE
               else stop
             else ret status) ;;
  emit SpiDeinit ;;
  ret status.

(** [nrf_driver_rf_channel]; [channel] is a [uint8_t]. *)
Definition nrf_driver_rf_channel (ch : Z) : M fn_status_t :=
  let status := if (2 <=? ch) && (ch <=? 125) then NRF_MNGR_OK else ERROR in
  if fn_status_eqb status NRF_MNGR_OK then
    status <- w_register RF_CH [ch] ONE_BYTE ;;
    modify_drv (fun d => with_config d (set_channel (user_config d)
                  (if fn_status_eqb status SPI_MNGR_OK then ch else channel (user_config d)))) ;;
    ret status
  else ret status.

(** [nrf_driver_standby_mode]. *)
Definition nrf_driver_standby_mode : M fn_status_t :=
  emit SpiInit ;;
  d <- get_drv ;;
  (if is_rx_mode (mode d) then
     config <- r_register_byte CONFIG ;;
     _ <- w_register CONFIG [u8 (Z.land config (Z.lnot (Z.shiftl SET_BIT CONFIG_PRIM_RX)))] ONE_BYTE ;;
     emit (CE false) ;;
     emit (SleepUs 130) ;;
     set_mode STANDBY_I
   else ret tt) ;;
  emit SpiDeinit ;;
  ret NRF_MNGR_OK.

(** The [while] loop of [nrf_driver_send_packet]: poll again while the
    payload transfer succeeded and no interrupt was reported.  The C loop is
    unbounded; every poll consumes a chip answer, so [fuel] (the number of
    answers left) never runs out before the answers do. *)
Fixpoint send_poll (fuel : nat) (status : fn_status_t) (status_irq : fn_status_irq_t)
  : M fn_status_irq_t :=
  if fn_status_eqb status SPI_MNGR_OK && irq_eqb status_irq NONE_ASSERTED then
    match fuel with
    | O => stop
    | S f => r <- check_status_irq false ;; send_poll f status (fst r)
    end
  else ret status_irq.

(** The first [check_status_irq(NULL)] followed by the polling loop. *)
Definition send_wait (status : fn_status_t) : M fn_status_irq_t :=
  fun s => (r <- check_status_irq false ;; send_poll (length (bus s)) status (fst r)) s.

(** [nrf_driver_send_packet]. *)
Definition nrf_driver_send_packet (tx_packet : list Z) (size : nat) : M fn_status_t :=
  d <- get_drv ;;
  (if is_rx_mode (mode d) then
     _ <- nrf_driver_standby_mode ;;
     set_mode STANDBY_I
   else ret tt) ;;
  emit SpiInit ;;
  let tx_buffer := W_TX_PAYLOAD :: firstn size tx_packet in
  emit (CE true) ;;
  r <- spi_manager_transfer tx_buffer ;;
  set_mode TX_MODE ;;
  emit (SleepUs 15) ;;
  emit (CE false) ;;
  set_mode STANDBY_I ;;
  status_irq <- send_wait (fst r) ;;
  emit SpiDeinit ;;
  ret (if irq_eqb status_irq TX_DS_ASSERTED then NRF_MNGR_OK else ERROR).

(** [nrf_driver_read_packet]: returns the status and the caller's buffer
    after the call. *)
Definition nrf_driver_read_packet (rx_packet : list Z) (size : nat)
  : M (fn_status_t * list Z) :=
  emit SpiInit ;;
  d <- get_drv ;;
  status <- (if dyn_payloads (user_config d) =? 0 then ret SPI_MNGR_OK
             else r <- spi_manager_transfer [R_RX_PL_WID; NOP] ;;
                  if MAX_BYTES <? u8 (nth 1 (snd r) 0)
                  then flush_rx_fifo ;; ret ERROR
                  else ret (fst r)) ;;
  res <- (if truthy status then
            r <- spi_manager_transfer (R_RX_PAYLOAD :: repeat NOP size) ;;
            ret (fst r, map (fun i => u8 (nth (S i) (snd r) 0)) (seq 0 size)
                        ++ skipn size rx_packet)
          else ret (status, rx_packet)) ;;
  emit SpiDeinit ;;
  ret res.

(** [nrf_driver_is_packet]: the status and the pipe number stored through
    [rx_p_no], if any. *)
Definition nrf_driver_is_packet : M (fn_status_t * option Z) :=
  emit SpiInit ;;
  r <- check_status_irq true ;;
  emit SpiDeinit ;;
  ret (if irq_eqb (fst r) RX_DR_ASSERTED then NRF_MNGR_OK else ERROR, snd r).

(** [nrf_driver_receiver_mode]. *)
Definition nrf_driver_receiver_mode : M fn_status_t :=
  emit SpiInit ;;
  config <- r_register_byte CONFIG ;;
  let prim_rx := Z.land (Z.shiftr config CONFIG_PRIM_RX) 1 in
  status <- (if prim_rx =? SET_BIT then ret NRF_MNGR_OK
             else w_register CONFIG [u8 (Z.lor config (Z.shiftl SET_BIT CONFIG_PRIM_RX))] ONE_BYTE) ;;
  d <- get_drv ;;
  (if is_rx_addr_p0 d then
     _ <- w_register RX_ADDR_P0 (rx_addr_p0 d) (address_width_bytes d) ;;
     ret tt
   else ret tt) ;;
  emit (CE true) ;;
  emit (SleepUs 130) ;;
  set_mode RX_MODE ;;
  emit SpiDeinit ;;
  ret status.

(** ** Sequences of calls and what the bus shows *)

(** Calls an application makes between assigning pipe 0 and re-entering
    receive mode. *)
Inductive op :=
| OpSend (tx_packet : list Z) (size : nat)
| OpTxDestination (buffer : list Z)
| OpStandby
| OpIsPacket
| OpRead (rx_packet : list Z) (size : nat)
| OpRfChannel (ch : Z)
| OpPayloadSize (data_pipe size : Z).

Definition run_op (o : op) : M unit :=
  match o with
  | OpSend p n => _ <- nrf_driver_send_packet p n ;; ret tt
  | OpTxDestination b => _ <- nrf_driver_tx_destination b ;; ret tt
  | OpStandby => _ <- nrf_driver_standby_mode ;; ret tt
  | OpIsPacket => _ <- nrf_driver_is_packet ;; ret tt
  | OpRead b n => _ <- nrf_driver_read_packet b n ;; ret tt
  | OpRfChannel ch => _ <- nrf_driver_rf_channel ch ;; ret tt
  | OpPayloadSize p n => _ <- nrf_driver_payload_size p n ;; ret tt
  end.

Fixpoint run_ops (l : list op) : M unit :=
  match l with
  | [] => ret tt
  | o :: rest => run_op o ;; run_ops rest
  end.

(** The data bytes of the most recent write transaction to [reg] in a
    (newest first) trace: what the chip's register holds if the write
    went through. *)
Fixpoint last_write (reg : Z) (tr : list event) : option (list Z) :=
  match tr with
  | [] => None
  | Xfer (h :: data) :: rest =>
      if h =? Z.lor (Z.land REGISTER_MASK reg) W_REGISTER then Some data else last_write reg rest
  | _ :: rest => last_write reg rest
  end.

(** The transfers of a trace, oldest first. *)
Definition xfers (tr : list event) : list (list Z) :=
  rev (flat_map (fun e => match e with Xfer tx => [tx] | _ => [] end) tr).

(** A chip answer that transferred every byte and clocked back [rx]. *)
Definition ok_resp (rx : list Z) : resp := {| r_ok := true; r_rx := rx |}.

Definition st0 (b : list resp) : st := {| drv := nrf_driver_init; trace := []; bus := b |}.

(** The seven field checks of the configuration record, as the spec lists them. *)
Definition config_fields_valid (c : nrf_manager_t) : Prop :=
  (AW_3_BYTES <= address_width c <= AW_5_BYTES) /\
  (2 <= channel c <= 125) /\
  (data_rate c = RF_DR_1MBPS \/ data_rate c = RF_DR_2MBPS \/ data_rate c = RF_DR_250KBPS) /\
  (dyn_payloads c = DYNPD_ENABLE \/ dyn_payloads c = DYNPD_DISABLE) /\
  (power c = RF_PWR_NEG_18DBM \/ power c = RF_PWR_NEG_12DBM \/
   power c = RF_PWR_NEG_6DBM \/ power c = RF_PWR_0DBM) /\
  (retr_count c <= ARC_15RT) /\
  (retr_delay c = ARD_250US \/ retr_delay c = ARD_500US \/
   retr_delay c = ARD_750US \/ retr_delay c = ARD_1000US).

(** Whether bit [n] of a status value is set, as [check_status_irq] tests it. *)
Definition irq_bit (v n : Z) : bool := negb (Z.land (Z.shiftr v n) SET_BIT =? 0).

(** The interrupt of highest priority in a status value:
    max-retries over data-sent over data-received. *)
Definition irq_classify (v : Z) : fn_status_irq_t :=
  if irq_bit v STATUS_MAX_RT then MAX_RT_ASSERTED
  else if irq_bit v STATUS_TX_DS then TX_DS_ASSERTED
  else if irq_bit v STATUS_RX_DR then RX_DR_ASSERTED
  else NONE_ASSERTED.

Definition status_clear_write (n : Z) : event :=
  Xfer [Z.lor (Z.land REGISTER_MASK STATUS) W_REGISTER; Z.shiftl SET_BIT n].

(** The events of one STATUS poll (newest first): the STATUS read, one
    write-1-to-clear per asserted bit, and a TX FIFO flush after max-retries. *)
Definition irq_events (v : Z) : list event :=
  (if irq_bit v STATUS_MAX_RT
   then [SleepUs 2; WriteOnly [FLUSH_TX]; SleepUs 2; status_clear_write STATUS_MAX_RT] else []) ++
  (if irq_bit v STATUS_TX_DS then [status_clear_write STATUS_TX_DS] else []) ++
  (if irq_bit v STATUS_RX_DR then [status_clear_write STATUS_RX_DR] else []) ++
  [Xfer [STATUS; NOP]].

(** The chip's answers to one STATUS poll reporting [v]: the STATUS read,
    then one answer per write-1-to-clear. *)
Definition poll_resps (v : Z) : list resp :=
  ok_resp [0; v] ::
  repeat (ok_resp [0; 0])
    (length (filter (fun n => irq_bit (u8 v) n) [STATUS_RX_DR; STATUS_TX_DS; STATUS_MAX_RT])).

(** The part of the driver state that caches the pipe-0 address. *)
Definition p0_view (d : nrf_driver_t) : bool * list Z * nat :=
  (is_rx_addr_p0 d, rx_addr_p0 d, address_width_bytes d).

(** A computation that leaves the pipe-0 cache as it found it. *)
Definition keeps {A} (m : M A) : Prop :=
  forall s a s', m s = Some (a, s') -> p0_view (drv s') = p0_view (drv s).

(** ** Further driver functions *)

(** [nrf_driver_dyn_payloads_enable]: acts only when the cached flag is
    DYNPD_DISABLE. *)
Definition nrf_driver_dyn_payloads_enable : M fn_status_t :=
  emit SpiInit ;;
  d <- get_drv ;;
  status <- (if dyn_payloads (user_config d) =? DYNPD_DISABLE then
               feature <- r_register_byte FEATURE ;;
               let feature := u8 (Z.lor feature (Z.shiftl SET_BIT FEATURE_EN_DPL)) in
               status <- w_register FEATURE [feature] ONE_BYTE ;;
               modify_drv (fun d => with_config d (set_dyn_payloads (user_config d)
                             (if truthy status then DYNPD_ENABLE else DYNPD_DISABLE))) ;;
               if fn_status_eqb status SPI_MNGR_OK
               then w_register DYNPD [DYNPD_ENABLE] ONE_BYTE
               else ret status
             else ret SPI_MNGR_OK) ;;
  emit SpiDeinit ;;
  ret status.

(** [nrf_driver_dyn_payloads_disable]: acts only when the cached flag is
    DYNPD_ENABLE. *)
Definition nrf_driver_dyn_payloads_disable : M fn_status_t :=
  emit SpiInit ;;
  d <- get_drv ;;
  status <- (if dyn_payloads (user_config d) =? DYNPD_ENABLE then
               feature <- r_register_byte FEATURE ;;
               let feature := u8 (Z.land feature (Z.lnot (Z.shiftl SET_BIT FEATURE_EN_DPL))) in
               status <- w_register FEATURE [feature] ONE_BYTE ;;
               modify_drv (fun d => with_config d (set_dyn_payloads (user_config d)
                             (if truthy status then DYNPD_DISABLE else DYNPD_ENABLE))) ;;
               if fn_status_eqb status SPI_MNGR_OK
               then w_register DYNPD [DYNPD_DISABLE] ONE_BYTE
               else ret status
             else ret NRF_MNGR_OK) ;;
  emit SpiDeinit ;;
  ret status.

(** [nrf_driver_auto_retransmission].  The register is written from the
    pointer [(uint8_t* )(delay | count)]: the byte sent is the one stored at
    that address.  [mem] gives the byte at each address of the target's
    memory.  The delay loop is [for (i = 0; i < 48; i += 16)]. *)
Definition nrf_driver_auto_retransmission (mem : Z -> Z) (delay count : Z) : M fn_status_t :=
  emit SpiInit ;;
  let valid_params :=
    b2z (count <=? ARC_15RT)
    + Z.of_nat (length (filter (fun i => delay =? i) (for_range 0 (48 - 1) 16))) in
  let status := if valid_params =? 2 then NRF_MNGR_OK else ERROR in
  status <- (if fn_status_eqb status NRF_MNGR_OK
             then w_register SETUP_RETR [u8 (mem (Z.lor delay count))] ONE_BYTE
             else ret status) ;;
  emit SpiDeinit ;;
  ret status.

(** [nrf_driver_rf_data_rate]: the [switch] accepts the three data-rate
    enumerators; [spi_manager_deinit_spi] is called inside the [if]. *)
Definition nrf_driver_rf_data_rate (data_rate : Z) : M fn_status_t :=
  emit SpiInit ;;
  let status :=
    if (data_rate =? RF_DR_1MBPS) || (data_rate =? RF_DR_2MBPS) || (data_rate =? RF_DR_250KBPS)
    then NRF_MNGR_OK else ERROR in
  if fn_status_eqb status NRF_MNGR_OK then
    rf_setup <- r_register_byte RF_SETUP ;;
    let rf_setup := u8 (Z.lor (Z.land rf_setup RF_SETUP_RF_PWR_MASK)
                              (Z.land data_rate RF_SETUP_RF_DR_MASK)) in
    status <- w_register RF_SETUP [rf_setup] ONE_BYTE ;;
    emit SpiDeinit ;;
    ret status
  else ret status.

(** [nrf_driver_rf_power]: the validation loop is
    [for (i = 0; i < 6; i += 2)], left at the first match. *)
Definition nrf_driver_rf_power (rf_pwr : Z) : M fn_status_t :=
  emit SpiInit ;;
  let status := if existsb (fun i => rf_pwr =? i) (for_range 0 (6 - 1) 2)
                then NRF_MNGR_OK else ERROR in
  status <- (if fn_status_eqb status NRF_MNGR_OK then
               rf_setup <- r_register_byte RF_SETUP ;;
               let rf_setup := u8 (Z.lor (Z.land rf_setup RF_SETUP_RF_DR_MASK)
                                         (Z.land rf_pwr RF_SETUP_RF_PWR_MASK)) in
               w_register RF_SETUP [rf_setup] ONE_BYTE
             else ret status) ;;
  emit SpiDeinit ;;
  ret status.

(** ** Pin and SPI instance selection *)

(** [pin_min_t], [pin_max_t] and [spi_pins_t] of [pin_manager.h]. *)
Definition CIPO_MIN : Z := 0.
Definition SCK_MIN : Z := 2.
Definition COPI_MIN : Z := 3.
Definition SCK_MAX : Z := 26.
Definition COPI_MAX : Z := 27.
Definition CIPO_MAX : Z := 28.
Definition ALL_PINS : nat := 3.

(** [spi_instance_t] of [spi_manager.h]. *)
Definition SPI_0 : Z := 0.
Definition SPI_1 : Z := 1.
Definition INSTANCE_ERROR : Z := 2.

(** [pin_manager_validate]: one count per SPI pin and per value of its
    range that it equals. *)
Definition pin_manager_validate (copi cipo sck : Z) : fn_status_t :=
  let spi_pins := [(cipo, CIPO_MIN, CIPO_MAX); (copi, COPI_MIN, COPI_MAX);
                   (sck, SCK_MIN, SCK_MAX)] in
  let valid_pins :=
    fold_left (fun acc '(spi_pin, mn, mx) =>
                 acc + Z.of_nat (length (filter (fun pin => spi_pin =? pin) (for_range mn mx 4))))
              spi_pins 0 in
  if valid_pins =? 3 then PIN_MNGR_OK else ERROR.

(** The GPIO calls of [pin_manager_configure]. *)
Inductive gpio_event :=
| GpioSetFunctionSpi (pin : Z)
| GpioInit (pin : Z)
| GpioSetDirOut (pin : Z).

(** [pin_manager_configure]: the status and the GPIO calls made, in order. *)
Definition pin_manager_configure (copi cipo sck csn ce : Z) : fn_status_t * list gpio_event :=
  let status := pin_manager_validate copi cipo sck in
  (status,
   if truthy status
   then [GpioSetFunctionSpi sck; GpioSetFunctionSpi copi; GpioSetFunctionSpi cipo;
         GpioInit ce; GpioInit csn; GpioSetDirOut ce; GpioSetDirOut csn]
   else []).

(** [pin_manager_t] and [spi_manager_t], the first two members of the global
    [nrf_driver]. *)
Record pin_manager_t := { copi : Z; cipo : Z; sck : Z; csn : Z; ce : Z }.

Inductive spi_inst_t := spi0 | spi1.

Record spi_manager_t := { instance : spi_inst_t; baudrate : Z }.

Record nrf_io_t := { user_pins : pin_manager_t; user_spi : spi_manager_t }.

(** [count[i]++] on a C array. *)
Definition incr_at (l : list Z) (i : Z) : list Z :=
  map (fun k => if Z.of_nat k =? i then nth k l 0 + 1 else nth k l 0) (seq 0 (length l)).

(** [nrf_driver_configure]: the status, the GPIO calls and the pin and SPI
    part of [nrf_driver] afterwards. *)
Definition nrf_driver_configure (io : nrf_io_t) (pins : pin_manager_t) (baudrate_hz : Z)
  : fn_status_t * list gpio_event * nrf_io_t :=
  let '(status, gpio) := pin_manager_configure (copi pins) (cipo pins) (sck pins)
                                               (csn pins) (ce pins) in
  if fn_status_eqb status PIN_MNGR_OK then
    let io := {| user_pins := pins; user_spi := user_spi io |} in
    let instance_pattern := [SPI_0; SPI_0; SPI_1; SPI_1; SPI_0; SPI_0; SPI_1; SPI_1] in
    let spi_instances :=
      [nth (Z.to_nat ((cipo pins - CIPO_MIN) / 4)) instance_pattern 0;
       nth (Z.to_nat ((copi pins - COPI_MIN) / 4)) instance_pattern 0;
       nth (Z.to_nat ((sck pins - SCK_MIN) / 4)) instance_pattern 0] in
    let count := fold_left incr_at (firstn ALL_PINS spi_instances) [0; 0; 0] in
    let status := if (nth 0 count 0 =? 3) || (nth 1 count 0 =? 3) then PIN_MNGR_OK else ERROR in
    if fn_status_eqb status PIN_MNGR_OK then
      (status, gpio,
       {| user_pins := pins;
          user_spi := {| baudrate := if 7500000 <? baudrate_hz then 7500000 else baudrate_hz;
                         instance := if nth 0 count 0 =? 3 then spi0 else spi1 |} |})
    else (status, gpio, io)
  else (status, gpio, io).

(** [check_cipo_pin], [check_copi_pin], [check_sck_pin]: the instance of the
    first value of the range equal to [pin], INSTANCE_ERROR if none. *)
Definition check_pin (pattern : list Z) (mn mx pin : Z) : Z :=
  match find (fun valid_pin => pin =? valid_pin) (for_range mn mx 4) with
  | Some valid_pin => nth (Z.to_nat (valid_pin / 4)) pattern 0
  | None => INSTANCE_ERROR
  end.

Definition check_cipo_pin : Z -> Z :=
  check_pin [SPI_0; SPI_0; SPI_1; SPI_1; SPI_0; SPI_0; SPI_1; SPI_1] CIPO_MIN CIPO_MAX.
Definition check_copi_pin : Z -> Z :=
  check_pin [SPI_0; SPI_0; SPI_1; SPI_1; SPI_0; SPI_0; SPI_1] COPI_MIN COPI_MAX.
Definition check_sck_pin : Z -> Z :=
  check_pin [SPI_0; SPI_0; SPI_1; SPI_1; SPI_0; SPI_0; SPI_1] SCK_MIN SCK_MAX.

(** The counting loop of [spi_manager_check_pins], left at the first
    INSTANCE_ERROR. *)
Fixpoint count_instances (l : list Z) (count : list Z) : list Z :=
  match l with
  | [] => count
  | i :: rest =>
      let count := incr_at count i in
      if i =? INSTANCE_ERROR then count else count_instances rest count
  end.

(** [spi_manager_check_pins]. *)
Definition spi_manager_check_pins (cipo_pin copi_pin sck_pin : Z) : Z :=
  let spi_instances := [check_cipo_pin cipo_pin; check_copi_pin copi_pin; check_sck_pin sck_pin] in
  let instance_count := count_instances spi_instances [0; 0; 0] in
  if nth (Z.to_nat INSTANCE_ERROR) instance_count 0 =? 0
  then (if nth (Z.to_nat SPI_0) instance_count 0 =? Z.of_nat ALL_PINS then SPI_0 else SPI_1)
  else INSTANCE_ERROR.

(** The pins wired to SPI0 and to SPI1, as the comments of [spi_manager.c]
    list them. *)
Definition spi0_cipo : list Z := [0; 4; 16; 20].
Definition spi0_copi : list Z := [3; 7; 19; 23].
Definition spi0_sck : list Z := [2; 6; 18; 22].
Definition spi1_cipo : list Z := [8; 12; 24; 28].
Definition spi1_copi : list Z := [11; 15; 27].
Definition spi1_sck : list Z := [10; 14; 26].

Definition mem_z (x : Z) (l : list Z) : bool := existsb (Z.eqb x) l.

(** ** Frame predicates *)

Definition preserves {A} (R : st -> st -> Prop) (m : M A) : Prop :=
  forall s a s', m s = Some (a, s') -> R s s'.

(** The trace of [s'] extends the trace of [s]. *)
Definition trace_grows (s s' : st) : Prop := exists tr, trace s' = tr ++ trace s.

(** [s'] has the driver state of [s]. *)
Definition same_drv (s s' : st) : Prop := drv s' = drv s.

(** The chip answers used between [s] and [s'] were taken from the front of
    the bus. *)
Definition bus_consumed (s s' : st) : Prop := exists used, bus s = used ++ bus s'.

(** The events added between [s] and [s'] are whole STATUS polls, each one
    the events [irq_events] lists for the value read. *)
Definition only_polls (s s' : st) : Prop :=
  exists vs, trace s' = flat_map irq_events vs ++ trace s.

(** ** Proofs *)

Ltac zbool :=
  repeat match goal with
         | H : (_ =? _) = true |- _ => apply Z.eqb_eq in H
         | H : (_ =? _) = false |- _ => apply Z.eqb_neq in H
         | H : (_ <=? _) = true |- _ => apply Z.leb_le in H
         | H : (_ <=? _) = false |- _ => apply Z.leb_gt in H
         | H : (_ <? _) = true |- _ => apply Z.ltb_lt in H
         | H : (_ <? _) = false |- _ => apply Z.ltb_ge in H
         end.

Lemma b2z_cases (b : bool) : (b2z b = 0 \/ b2z b = 1) /\ (b2z b = 1 <-> b = true).
Proof. destruct b; simpl; intuition congruence. Qed.

(** A four-valued [for] loop counts a value at most once. *)
Lemma count4 (p a b c d : Z) :
  a <> b -> a <> c -> a <> d -> b <> c -> b <> d -> c <> d ->
  let n := Z.of_nat (length (filter (fun x => p =? x) [a; b; c; d])) in
  (n = 0 \/ n = 1) /\ (n = 1 <-> p = a \/ p = b \/ p = c \/ p = d).
Proof.
  intros Hab Hac Had Hbc Hbd Hcd n; subst n; simpl.
  destruct (p =? a) eqn:E1; destruct (p =? b) eqn:E2;
  destruct (p =? c) eqn:E3; destruct (p =? d) eqn:E4; zbool; simpl;
  try (subst; congruence); split; try lia; split; intros; lia.
Qed.

Lemma validate_components (c : nrf_manager_t) :
  validate_config c =
  if b2z ((AW_3_BYTES <=? address_width c) && (address_width c <=? AW_5_BYTES))
     + b2z ((2 <=? channel c) && (channel c <=? 125))
     + b2z ((data_rate c =? RF_DR_1MBPS) || (data_rate c =? RF_DR_2MBPS)
            || (data_rate c =? RF_DR_250KBPS))
     + b2z ((dyn_payloads c =? DYNPD_ENABLE) || (dyn_payloads c =? DYNPD_DISABLE))
     + Z.of_nat (length (filter (fun p => power c =? p) [0; 2; 4; 6]))
     + b2z (retr_count c <=? ARC_15RT)
     + Z.of_nat (length (filter (fun d => retr_delay c =? d) [0; 16; 32; 48])) =? 7
  then NRF_MNGR_OK else ERROR.
Proof. reflexivity. Qed.

Lemma b2z_one_iff (b : bool) (P : Prop) : (b = true <-> P) -> (b2z b = 1 <-> P).
Proof. destruct b; simpl; intuition (try congruence; try lia). Qed.

(** C5 *)
(** Claim C5: [validate_config] accepts a configuration record (returns
    NRF_MNGR_OK) exactly when all seven field checks pass: address width
    encoding in {3,4,5} bytes, channel in [2,125], one of the three data
    rates, a legal dynamic-payload enumerator, one of the four power levels,
    retransmit count at most 15 and one of the four retransmit delays; when
    any field fails, it returns ERROR. *)
Theorem validate_config_all_seven (c : nrf_manager_t) :
  (validate_config c = NRF_MNGR_OK <-> config_fields_valid c) /\
  (~ config_fields_valid c -> validate_config c = ERROR).
Proof.
  rewrite validate_components.
  destruct (count4 (power c) 0 2 4 6 ltac:(lia) ltac:(lia) ltac:(lia)
              ltac:(lia) ltac:(lia) ltac:(lia)) as [P1 P2].
  destruct (count4 (retr_delay c) 0 16 32 48 ltac:(lia) ltac:(lia) ltac:(lia)
              ltac:(lia) ltac:(lia) ltac:(lia)) as [D1 D2].
  cbv zeta in P1, P2, D1, D2.
  assert (A : b2z ((AW_3_BYTES <=? address_width c) && (address_width c <=? AW_5_BYTES)) = 1
              <-> AW_3_BYTES <= address_width c <= AW_5_BYTES).
  { apply b2z_one_iff. rewrite andb_true_iff, !Z.leb_le. tauto. }
  assert (C : b2z ((2 <=? channel c) && (channel c <=? 125)) = 1 <-> 2 <= channel c <= 125).
  { apply b2z_one_iff. rewrite andb_true_iff, !Z.leb_le. tauto. }
  assert (R : b2z ((data_rate c =? RF_DR_1MBPS) || (data_rate c =? RF_DR_2MBPS)
                   || (data_rate c =? RF_DR_250KBPS)) = 1
              <-> data_rate c = RF_DR_1MBPS \/ data_rate c = RF_DR_2MBPS
                  \/ data_rate c = RF_DR_250KBPS).
  { apply b2z_one_iff. rewrite !orb_true_iff, !Z.eqb_eq. tauto. }
  assert (Y : b2z ((dyn_payloads c =? DYNPD_ENABLE) || (dyn_payloads c =? DYNPD_DISABLE)) = 1
              <-> dyn_payloads c = DYNPD_ENABLE \/ dyn_payloads c = DYNPD_DISABLE).
  { apply b2z_one_iff. rewrite !orb_true_iff, !Z.eqb_eq. tauto. }
  assert (N : b2z (retr_count c <=? ARC_15RT) = 1 <-> retr_count c <= ARC_15RT).
  { apply b2z_one_iff. rewrite Z.leb_le. tauto. }
  destruct (b2z_cases ((AW_3_BYTES <=? address_width c) && (address_width c <=? AW_5_BYTES))) as [A0 _].
  destruct (b2z_cases ((2 <=? channel c) && (channel c <=? 125))) as [C0 _].
  destruct (b2z_cases ((data_rate c =? RF_DR_1MBPS) || (data_rate c =? RF_DR_2MBPS)
                       || (data_rate c =? RF_DR_250KBPS))) as [R0 _].
  destruct (b2z_cases ((dyn_payloads c =? DYNPD_ENABLE) || (dyn_payloads c =? DYNPD_DISABLE))) as [Y0 _].
  destruct (b2z_cases (retr_count c <=? ARC_15RT)) as [N0 _].
  revert A C R Y N A0 C0 R0 Y0 N0 P1 P2 D1 D2.
  unfold config_fields_valid.
  change RF_PWR_NEG_18DBM with 0. change RF_PWR_NEG_12DBM with 2.
  change RF_PWR_NEG_6DBM with 4. change RF_PWR_0DBM with 6.
  change ARD_250US with 0. change ARD_500US with 16.
  change ARD_750US with 32. change ARD_1000US with 48.
  generalize (b2z ((AW_3_BYTES <=? address_width c) && (address_width c <=? AW_5_BYTES))) as xa.
  generalize (b2z ((2 <=? channel c) && (channel c <=? 125))) as xc.
  generalize (b2z ((data_rate c =? RF_DR_1MBPS) || (data_rate c =? RF_DR_2MBPS)
                   || (data_rate c =? RF_DR_250KBPS))) as xr.
  generalize (b2z ((dyn_payloads c =? DYNPD_ENABLE) || (dyn_payloads c =? DYNPD_DISABLE))) as xy.
  generalize (b2z (retr_count c <=? ARC_15RT)) as xn.
  generalize (Z.of_nat (length (filter (fun p => power c =? p) [0; 2; 4; 6]))) as xp.
  generalize (Z.of_nat (length (filter (fun d => retr_delay c =? d) [0; 16; 32; 48]))) as xd.
  intros xd xp xn xy xr xc xa A C R Y N A0 C0 R0 Y0 N0 P1 P2 D1 D2.
  destruct (Z.eqb_spec (xa + xc + xr + xy + xp + xn + xd) 7) as [E | E].
  - assert (xa = 1 /\ xc = 1 /\ xr = 1 /\ xy = 1 /\ xp = 1 /\ xn = 1 /\ xd = 1)
      as (H1 & H2 & H3 & H4 & H5 & H6 & H7)
      by (clear - E A0 C0 R0 Y0 N0 P1 D1; lia).
    pose proof (conj (proj1 A H1) (conj (proj1 C H2) (conj (proj1 R H3)
                 (conj (proj1 Y H4) (conj (proj1 P2 H5) (conj (proj1 N H6) (proj1 D2 H7))))))) as V.
    clear - V.
    split; [split; [intros _; exact V | reflexivity] | intros Hn; contradiction].
  - split; [split; [discriminate | intros V] | reflexivity].
    exfalso; apply E.
    destruct V as (V1 & V2 & V3 & V4 & V5 & V6 & V7).
    apply A in V1; apply C in V2; apply R in V3; apply Y in V4;
      apply P2 in V5; apply N in V6; apply D2 in V7.
    clear - V1 V2 V3 V4 V5 V6 V7; lia.
Qed.

Lemma w_register_step (reg : Z) (buffer : list Z) (n : nat) (s : st) (rsp : resp) (rest : list resp) :
  bus s = rsp :: rest ->
  w_register reg buffer n s =
  Some (if r_ok rsp then SPI_MNGR_OK else ERROR,
        {| drv := drv s;
           trace := Xfer (Z.lor (Z.land REGISTER_MASK reg) W_REGISTER :: firstn n buffer) :: trace s;
           bus := rest |}).
Proof. intros B. unfold w_register, bind, ret, spi_manager_transfer. rewrite B. reflexivity. Qed.

Lemma w_each_ok (regs buffer : list Z) (n : nat) (status : fn_status_t) (s : st) :
  regs <> [] -> Forall (fun r => r_ok r = true) (bus s) -> (length regs <= length (bus s))%nat ->
  exists s', w_each regs buffer n status s = Some (SPI_MNGR_OK, s').
Proof.
  revert status s.
  induction regs as [|r rs IH]; intros status s Hne Hok Hlen; [congruence|].
  destruct (bus s) as [|rsp rest] eqn:B; simpl in Hlen; [lia|].
  inversion Hok as [|? ? Hr Hrest]; subst.
  simpl. unfold bind at 1. rewrite (w_register_step _ _ _ _ rsp rest B), Hr. simpl.
  destruct rs as [|r' rs'].
  - eexists; reflexivity.
  - apply IH; [congruence | exact Hrest | simpl in *; lia].
Qed.

(** C8 *)
(** Claim C8: for every pipe (0 to 5, or ALL_DATA_PIPES), [nrf_driver_payload_size]
    rejects every size outside 1..32 (so 0 and 33) with ERROR, issuing no
    register write, and for every size in 1..32 (so 32) it writes the
    payload-width register(s) and returns SPI_MNGR_OK when the transfers
    succeed. *)
Theorem payload_size_range (data_pipe size : Z) (s : st) :
  0 <= data_pipe <= ALL_DATA_PIPES ->
  (~ (1 <= size <= 32) ->
     nrf_driver_payload_size data_pipe size s
     = Some (ERROR, {| drv := drv s; trace := SpiDeinit :: SpiInit :: trace s; bus := bus s |})) /\
  (1 <= size <= 32 -> Forall (fun r => r_ok r = true) (bus s) -> (6 <= length (bus s))%nat ->
     exists s', nrf_driver_payload_size data_pipe size s = Some (SPI_MNGR_OK, s')).
Proof.
  intros Hp. split.
  - intros Hs. unfold nrf_driver_payload_size, bind, emit, ret.
    replace ((ZERO_BYTES <? size) && (size <=? MAX_BYTES)) with false; [reflexivity|].
    symmetry. apply andb_false_iff. unfold ZERO_BYTES, MAX_BYTES.
    destruct (Z.ltb_spec 0 size); destruct (Z.leb_spec size 32); auto; lia.
  - intros Hs Hok Hlen. unfold nrf_driver_payload_size.
    replace ((ZERO_BYTES <? size) && (size <=? MAX_BYTES)) with true
      by (symmetry; apply andb_true_iff; unfold ZERO_BYTES, MAX_BYTES;
          split; [apply Z.ltb_lt | apply Z.leb_le]; lia).
    unfold bind at 1, emit at 1. simpl fn_status_eqb. cbv iota beta.
    unfold bind at 1.
    set (s1 := {| drv := drv s; trace := SpiInit :: trace s; bus := bus s |}).
    destruct (Z.eqb_spec data_pipe ALL_DATA_PIPES) as [E | E].
    + destruct (w_each_ok rx_pw_registers [u8 size] ONE_BYTE NRF_MNGR_OK s1)
        as [s2 Hs2]; [discriminate | exact Hok | simpl; exact Hlen |].
      rewrite Hs2. unfold bind, emit, ret. eexists; reflexivity.
    + replace ((0 <=? data_pipe) && (data_pipe <? ALL_DATA_PIPES)) with true
        by (symmetry; apply andb_true_iff; split; [apply Z.leb_le | apply Z.ltb_lt];
            unfold ALL_DATA_PIPES in *; lia).
      destruct (bus s) as [|rsp rest] eqn:B; [simpl in Hlen; lia|].
      inversion Hok as [|? ? Hr _]; subst.
      rewrite (w_register_step _ _ _ s1 rsp rest eq_refl), Hr.
      unfold bind, emit, ret. eexists; reflexivity.
Qed.

(** C10 *)
(** Claim C10: for a channel in [2,125], [nrf_driver_rf_channel] issues one
    RF_CH write and stores the channel in the cached configuration only when
    that write returned SPI_MNGR_OK, leaving every cached field unchanged
    otherwise; for a channel outside [2,125] it returns ERROR and touches
    neither the bus nor the driver state. *)
Theorem rf_channel_cache_atomic (ch : Z) (s s' : st) (r : fn_status_t) :
  nrf_driver_rf_channel ch s = Some (r, s') ->
  (2 <= ch <= 125 ->
     (exists rsp rest,
         bus s = rsp :: rest /\ bus s' = rest /\
         trace s' = Xfer [Z.lor (Z.land REGISTER_MASK RF_CH) W_REGISTER; ch] :: trace s /\
         r = (if r_ok rsp then SPI_MNGR_OK else ERROR)) /\
     drv s' = with_config (drv s)
                (set_channel (user_config (drv s))
                   (if fn_status_eqb r SPI_MNGR_OK then ch else channel (user_config (drv s))))) /\
  (~ (2 <= ch <= 125) -> r = ERROR /\ s' = s).
Proof.
  intros H. unfold nrf_driver_rf_channel in H.
  destruct ((2 <=? ch) && (ch <=? 125)) eqn:E.
  - apply andb_true_iff in E as [E1 E2]. zbool. split; [intros _ | intros N; lia].
    simpl in H. unfold bind at 1 in H.
    destruct (bus s) as [|rsp rest] eqn:B.
    + unfold w_register, bind, spi_manager_transfer in H. rewrite B in H. discriminate.
    + rewrite (w_register_step _ _ _ s rsp rest B) in H.
      unfold bind, modify_drv, ret in H. simpl in H.
      inversion H; subst; clear H. simpl.
      split; [exists rsp, rest; repeat split; reflexivity | reflexivity].
  - apply andb_false_iff in E. simpl in H. unfold ret in H. inversion H; subst.
    split; [intros C; destruct E as [E | E]; zbool; lia | auto].
Qed.

Ltac run_bus H :=
  repeat (simpl in H;
          match type of H with
          | context [match ?l with [] => None | _ :: _ => _ end] =>
              destruct l; [discriminate H | ]
          | context [if ?c then _ else _] => destruct c eqn:?
          end).

Ltac rewrite_bools :=
  repeat match goal with
         | E : ?c = ?b |- context [?c] => match b with true => rewrite E | false => rewrite E end
         end.

(** C9 *)
(** Claim C9: for every status value read by [check_status_irq], the result is
    the asserted interrupt of highest priority (max-retries, then data-sent,
    then data-received), and the bus shows the STATUS read followed by one
    write-1-to-clear of each asserted bit on its own, data-received first,
    with a TX FIFO flush after the max-retries clear; this holds in
    particular when several bits are set at once. *)
Theorem check_status_irq_clears_each (has_rx_p_no : bool) (s s' : st)
    (irq : fn_status_irq_t) (p : option Z) :
  check_status_irq has_rx_p_no s = Some ((irq, p), s') ->
  exists (rsp : resp) (rest : list resp), bus s = rsp :: rest /\
    (let v := u8 (nth 1 (r_rx rsp) 0) in
     irq = irq_classify v /\ trace s' = irq_events v ++ trace s).
Proof.
  intros H.
  unfold check_status_irq, r_register_byte, w_register, spi_manager_transfer,
    flush_tx_fifo, bind, ret, emit in H.
  destruct (bus s) as [|rsp rest] eqn:B; [discriminate H|].
  exists rsp, rest. split; [reflexivity|].
  run_bus H; inversion H; subst; clear H;
    unfold irq_classify, irq_events, irq_bit; simpl; rewrite_bools; simpl; split; reflexivity.
Qed.

Lemma check_status_irq_poll (w : Z) (rest : list resp) (s : st) :
  bus s = poll_resps w ++ rest ->
  exists s1, check_status_irq false s = Some ((irq_classify (u8 w), None), s1) /\ bus s1 = rest.
Proof.
  intros B.
  unfold check_status_irq, r_register_byte, w_register, spi_manager_transfer,
    flush_tx_fifo, bind, ret, emit.
  rewrite B. unfold poll_resps, irq_classify, irq_bit. simpl.
  destruct (Z.land (Z.shiftr (u8 w) STATUS_RX_DR) SET_BIT =? 0);
  destruct (Z.land (Z.shiftr (u8 w) STATUS_TX_DS) SET_BIT =? 0);
  destruct (Z.land (Z.shiftr (u8 w) STATUS_MAX_RT) SET_BIT =? 0);
  simpl; eexists; split; reflexivity.
Qed.

Lemma send_poll_again (f : nat) :
  send_poll (S f) SPI_MNGR_OK NONE_ASSERTED =
  bind (check_status_irq false) (fun r => send_poll f SPI_MNGR_OK (fst r)).
Proof. reflexivity. Qed.

Lemma send_poll_done (f : nat) (status : fn_status_t) (irq : fn_status_irq_t) :
  irq <> NONE_ASSERTED -> send_poll f status irq = ret irq.
Proof.
  intros Hn. destruct f; simpl; destruct irq; try congruence;
    destruct (fn_status_eqb status SPI_MNGR_OK); reflexivity.
Qed.

Lemma poll_resps_length (l : list Z) : (length l <= length (flat_map poll_resps l))%nat.
Proof. induction l as [|w l IH]; simpl; [lia|]. rewrite length_app. simpl. lia. Qed.

Lemma send_poll_none_prefix (v : Z) (rest : list resp) :
  irq_classify (u8 v) <> NONE_ASSERTED ->
  forall pre fuel s,
  Forall (fun w => irq_classify (u8 w) = NONE_ASSERTED) pre ->
  bus s = flat_map poll_resps (pre ++ [v]) ++ rest ->
  (length pre < fuel)%nat ->
  exists s', send_poll fuel SPI_MNGR_OK NONE_ASSERTED s = Some (irq_classify (u8 v), s')
             /\ bus s' = rest.
Proof.
  intros Hv pre. induction pre as [|w pre IH]; intros fuel s Hpre B Hf.
  - destruct fuel as [|f]; [simpl in Hf; lia|].
    simpl in B. rewrite app_nil_r in B.
    destruct (check_status_irq_poll v rest s B) as [s1 [H1 B1]].
    rewrite send_poll_again. unfold bind at 1. rewrite H1. simpl fst.
    rewrite (send_poll_done f SPI_MNGR_OK _ Hv). exists s1. split; [reflexivity | exact B1].
  - inversion Hpre as [|? ? Hw Hpre']; subst.
    destruct fuel as [|f]; [simpl in Hf; lia|].
    simpl in B. rewrite <- app_assoc in B.
    destruct (check_status_irq_poll w _ s B) as [s1 [H1 B1]].
    rewrite send_poll_again. unfold bind at 1. rewrite H1. simpl fst. rewrite Hw.
    apply IH; [exact Hpre' | exact B1 | simpl in Hf; lia].
Qed.

(** The send operation's polling after a successful payload transfer ends
    at the first poll that reports any interrupt, when every earlier poll
    reports none. *)
Lemma send_wait_first_report (pre : list Z) (v : Z) (rest : list resp) (s : st) :
  Forall (fun w => irq_classify (u8 w) = NONE_ASSERTED) pre ->
  irq_classify (u8 v) <> NONE_ASSERTED ->
  bus s = flat_map poll_resps (pre ++ [v]) ++ rest ->
  exists s', send_wait SPI_MNGR_OK s = Some (irq_classify (u8 v), s') /\ bus s' = rest.
Proof.
  intros Hpre Hn B. unfold send_wait, bind at 1.
  destruct pre as [|w pre'].
  - simpl in B. rewrite app_nil_r in B.
    destruct (check_status_irq_poll v rest s B) as [s1 [H1 B1]].
    rewrite H1. simpl fst. rewrite (send_poll_done _ SPI_MNGR_OK _ Hn).
    exists s1. split; [reflexivity | exact B1].
  - inversion Hpre as [|? ? Hw Hpre']; subst.
    assert (Hlen : (length pre' < length (bus s))%nat).
    { rewrite B. rewrite !length_app. simpl. rewrite !length_app.
      pose proof (poll_resps_length (pre' ++ [v])) as L. rewrite length_app in L. simpl in L.
      lia. }
    simpl in B. rewrite <- app_assoc in B.
    destruct (check_status_irq_poll w _ s B) as [s1 [H1 B1]].
    rewrite H1. simpl fst. rewrite Hw.
    apply (send_poll_none_prefix v rest Hn pre' _ s1 Hpre' B1 Hlen).
Qed.

(** After a successful payload transfer, when every poll before the first
    one showing data-sent or max-retries shows none of the three interrupt
    bits, the send operation's polling (the first [check_status_irq] and the
    [while] loop) performs exactly those polls, consuming exactly their chip
    answers, and ends at that first poll with max-retries if that bit is set
    and data-sent otherwise. *)
Theorem send_wait_stops_at_completion (pre : list Z) (v : Z) (rest : list resp) (s : st) :
  Forall (fun w => irq_classify (u8 w) = NONE_ASSERTED) pre ->
  irq_bit (u8 v) STATUS_TX_DS || irq_bit (u8 v) STATUS_MAX_RT = true ->
  bus s = flat_map poll_resps (pre ++ [v]) ++ rest ->
  exists s', send_wait SPI_MNGR_OK s =
             Some (if irq_bit (u8 v) STATUS_MAX_RT then MAX_RT_ASSERTED else TX_DS_ASSERTED, s')
             /\ bus s' = rest.
Proof.
  intros Hpre Hv B.
  assert (Hc : irq_classify (u8 v) =
               if irq_bit (u8 v) STATUS_MAX_RT then MAX_RT_ASSERTED else TX_DS_ASSERTED).
  { unfold irq_classify. destruct (irq_bit (u8 v) STATUS_MAX_RT) eqn:Em; [reflexivity|].
    rewrite orb_false_r in Hv. rewrite Hv. reflexivity. }
  assert (Hn : irq_classify (u8 v) <> NONE_ASSERTED)
    by (rewrite Hc; destruct (irq_bit (u8 v) STATUS_MAX_RT); discriminate).
  rewrite <- Hc. exact (send_wait_first_report pre v rest s Hpre Hn B).
Qed.

Lemma bind_some {A B} (m : M A) (k : A -> M B) (s : st) (r : B) (s' : st) :
  bind m k s = Some (r, s') -> exists a s1, m s = Some (a, s1) /\ k a s1 = Some (r, s').
Proof.
  unfold bind. destruct (m s) as [[a s1]|]; [|discriminate]. intros H. eauto.
Qed.

Ltac peel H :=
  repeat (match type of H with bind _ _ _ = _ => idtac end;
          apply bind_some in H;
          let a := fresh "a" in let s1 := fresh "s" in let Hm := fresh "Hm" in
          destruct H as (a & s1 & Hm & H); cbv beta zeta in H).

(** C4 *)
(** Claim C4 (code defect): with the default configuration and a chip that
    accepts every transfer, [nrf_driver_initialise] writes only the first
    eight entries of [register_list] (CONFIG, EN_AA, SETUP_AW, SETUP_RETR,
    RF_CH, RF_SETUP, FEATURE, DYNPD) and then flushes both FIFOs: the ninth
    entry, the STATUS write clearing the three interrupt bits, is never
    issued. *)
Theorem initialise_skips_status_clear :
  match nrf_driver_initialise (Some default_config) (st0 (repeat (ok_resp [0; 0]) 9)) with
  | Some (r, s') =>
      r = SPI_MNGR_OK /\
      xfers (trace s') = [[0x20; 0x0E]; [0x21; 0x3F]; [0x23; 0x03]; [0x24; 0x1A];
                          [0x25; 110]; [0x26; 0x06]; [0x3D; 0x05]; [0x3C; 0x00]] /\
      last_write STATUS (trace s') = None /\
      firstn 6 (trace s') = [SpiDeinit; SleepUs 2; WriteOnly [FLUSH_RX]; SleepUs 2;
                             SleepUs 2; WriteOnly [FLUSH_TX]]
  | None => False
  end.
Proof. vm_compute. repeat split. Qed.

(** C6 *)
(** Claim C6: with dynamic payloads enabled, [nrf_driver_read_packet] first
    sends the payload-width query. If the width it reports is above 32, the
    call flushes the RX FIFO and returns ERROR: no payload read is sent and
    the caller's buffer comes back unchanged. If the query succeeds and the
    width is at most 32, the next transfer is the payload read. *)
Theorem read_packet_width_check (rx_packet : list Z) (size : nat) (s s' : st)
    (r : fn_status_t) (buf' : list Z) (rsp : resp) (rest : list resp) :
  dyn_payloads (user_config (drv s)) <> 0 ->
  bus s = rsp :: rest ->
  nrf_driver_read_packet rx_packet size s = Some ((r, buf'), s') ->
  (MAX_BYTES < u8 (nth 1 (r_rx rsp) 0) ->
     r = ERROR /\ buf' = rx_packet /\ bus s' = rest /\
     trace s' = SpiDeinit :: SleepUs 2 :: WriteOnly [FLUSH_RX] :: SleepUs 2 ::
                Xfer [R_RX_PL_WID; NOP] :: SpiInit :: trace s) /\
  (u8 (nth 1 (r_rx rsp) 0) <= MAX_BYTES -> r_ok rsp = true ->
     exists rsp2 rest2, rest = rsp2 :: rest2 /\ bus s' = rest2 /\
       trace s' = SpiDeinit :: Xfer (R_RX_PAYLOAD :: repeat NOP size) ::
                  Xfer [R_RX_PL_WID; NOP] :: SpiInit :: trace s).
Proof.
  intros Hd B H.
  unfold nrf_driver_read_packet, spi_manager_transfer, flush_rx_fifo,
    bind, ret, emit, get_drv in H.
  simpl in H. rewrite B in H.
  rewrite (proj2 (Z.eqb_neq _ _) Hd) in H.
  simpl in H.
  match type of H with context [if ?c then _ else _] => destruct c eqn:W end;
  zbool; unfold MAX_BYTES in *; simpl in H.
  - split; [ | intros; lia].
    intros _. inversion H; subst. repeat split; reflexivity.
  - split; [intros; lia | ].
    intros _ Hok. rewrite Hok in H. simpl in H.
    destruct rest as [|rsp2 rest2]; [discriminate H|].
    inversion H; subst. exists rsp2, rest2. repeat split; reflexivity.
Qed.

(** C7 *)
(** Claim C7: for a pipe number 0 to 5 and a non-empty buffer, the address
    write of [nrf_driver_rx_destination] is the pipe's RX_ADDR register header
    followed by the first [address_width_bytes] bytes of the buffer for pipes
    0 and 1, and by exactly one byte, the buffer's first, for pipes 2 to 5.
    The buffer's length plays no part. After that write come only the
    EN_RXADDR read and, when needed, the EN_RXADDR write. *)
Theorem rx_destination_pipe_write (data_pipe : Z) (buffer : list Z) (s s' : st)
    (r : fn_status_t) :
  0 <= data_pipe < ALL_DATA_PIPES ->
  buffer <> [] ->
  nrf_driver_rx_destination data_pipe buffer s = Some (r, s') ->
  exists later,
    trace s' = later ++
               Xfer (Z.lor (Z.land REGISTER_MASK (nth (Z.to_nat data_pipe) rx_registers 0))
                           W_REGISTER
                     :: (if data_pipe <? DATA_PIPE_2
                         then firstn (address_width_bytes (drv s)) buffer
                         else [hd 0 buffer]))
               :: SpiInit :: trace s /\
    (later = [SpiDeinit; Xfer [EN_RXADDR; NOP]] \/
     exists e, later = [SpiDeinit; Xfer [Z.lor (Z.land REGISTER_MASK EN_RXADDR) W_REGISTER; e];
                        Xfer [EN_RXADDR; NOP]]).
Proof.
  intros Hp Hb H.
  destruct buffer as [|b0 bs]; [congruence|].
  unfold nrf_driver_rx_destination, w_register, r_register_byte, spi_manager_transfer,
    modify_drv, get_drv, bind, ret, emit in H.
  run_bus H; zbool; unfold DATA_PIPE_0, DATA_PIPE_2, ALL_DATA_PIPES in *;
    try lia; inversion H; subst; clear H; simpl;
    repeat match goal with
           | |- context [if ?c then _ else _] => destruct c eqn:?; zbool; try lia
           end;
    first [ exists [SpiDeinit; Xfer [EN_RXADDR; NOP]]; split; [reflexivity | left; reflexivity]
          | eexists [SpiDeinit; Xfer [_; _]; Xfer [EN_RXADDR; NOP]];
            split; [reflexivity | right; eexists; reflexivity] ].
Qed.

(** *** The pipe-0 cache across calls *)

Lemma keeps_ret {A} (a : A) : keeps (ret a).
Proof. intros s b s' H. inversion H; reflexivity. Qed.

Lemma keeps_bind {A B} (m : M A) (f : A -> M B) :
  keeps m -> (forall a, keeps (f a)) -> keeps (bind m f).
Proof.
  intros Hm Hf s b s' H. unfold bind in H.
  destruct (m s) as [[a s1]|] eqn:E; [|discriminate H].
  rewrite (Hf a s1 b s' H). exact (Hm s a s1 E).
Qed.

Lemma keeps_emit e : keeps (emit e).
Proof. intros s a s' H. inversion H; reflexivity. Qed.

Lemma keeps_get : keeps get_drv.
Proof. intros s a s' H. inversion H; reflexivity. Qed.

Lemma keeps_stop {A} : keeps (@stop A).
Proof. intros s a s' H. discriminate H. Qed.

Lemma keeps_transfer tx : keeps (spi_manager_transfer tx).
Proof.
  intros s a s' H. unfold spi_manager_transfer in H.
  destruct (bus s); [discriminate H|]. inversion H; reflexivity.
Qed.

Lemma keeps_modify f : (forall d, p0_view (f d) = p0_view d) -> keeps (modify_drv f).
Proof. intros Hf s a s' H. inversion H; subst. apply Hf. Qed.

Lemma keeps_set_mode m : keeps (set_mode m).
Proof. apply keeps_modify. reflexivity. Qed.

Create HintDb keeps_db.
#[local] Hint Resolve keeps_ret keeps_emit keeps_get keeps_stop keeps_transfer
  keeps_set_mode : keeps_db.

(** Splits a computation into its steps and closes each with [keeps_db]. *)
Ltac keeps_tac :=
  repeat first
    [ solve [eauto with keeps_db]
    | apply keeps_bind; [ | intros ?]
    | match goal with
      | |- keeps (if ?b then _ else _) => destruct b
      | |- keeps (match ?p with (_, _) => _ end) => destruct p
      end
    | apply keeps_modify; intros; reflexivity ].

Lemma keeps_w_register reg buffer size : keeps (w_register reg buffer size).
Proof. unfold w_register. keeps_tac. Qed.

Lemma keeps_r_register_byte reg : keeps (r_register_byte reg).
Proof. unfold r_register_byte. keeps_tac. Qed.

Lemma keeps_flush_tx : keeps flush_tx_fifo.
Proof. unfold flush_tx_fifo. keeps_tac. Qed.

Lemma keeps_flush_rx : keeps flush_rx_fifo.
Proof. unfold flush_rx_fifo. keeps_tac. Qed.

#[local] Hint Resolve keeps_w_register keeps_r_register_byte keeps_flush_tx keeps_flush_rx
  : keeps_db.

Lemma keeps_check_status_irq has : keeps (check_status_irq has).
Proof. unfold check_status_irq. keeps_tac. Qed.

#[local] Hint Resolve keeps_check_status_irq : keeps_db.

Lemma keeps_w_each regs buffer size status : keeps (w_each regs buffer size status).
Proof.
  revert status. induction regs as [|r rs IH]; intros status; simpl; keeps_tac.
Qed.

Lemma keeps_send_poll fuel status irq : keeps (send_poll fuel status irq).
Proof.
  revert irq. induction fuel as [|f IH]; intros irq; simpl; keeps_tac.
Qed.

#[local] Hint Resolve keeps_w_each keeps_send_poll : keeps_db.

Lemma keeps_send_wait status : keeps (send_wait status).
Proof.
  intros s a s' H. unfold send_wait in H.
  assert (K : keeps (r <- check_status_irq false ;;
                     send_poll (length (bus s)) status (fst r))) by keeps_tac.
  exact (K s a s' H).
Qed.

Lemma keeps_standby : keeps nrf_driver_standby_mode.
Proof. unfold nrf_driver_standby_mode. keeps_tac. Qed.

#[local] Hint Resolve keeps_send_wait keeps_standby : keeps_db.

Lemma keeps_run_op o : keeps (run_op o).
Proof.
  destruct o; simpl;
    unfold nrf_driver_send_packet, nrf_driver_tx_destination, nrf_driver_is_packet,
      nrf_driver_read_packet, nrf_driver_rf_channel, nrf_driver_payload_size;
    keeps_tac.
Qed.

Lemma keeps_run_ops ops : keeps (run_ops ops).
Proof.
  induction ops as [|o rest IH]; simpl.
  - apply keeps_ret.
  - apply keeps_bind; [apply keeps_run_op | intros; exact IH].
Qed.

(** Assigning pipe 0 caches the first [address_width_bytes] bytes and sets
    the flag. *)
Lemma rx_destination_p0_cache (A : list Z) (s s1 : st) (r : fn_status_t) :
  nrf_driver_rx_destination DATA_PIPE_0 A s = Some (r, s1) ->
  p0_view (drv s1) =
    (true, memcpy (rx_addr_p0 (drv s)) A (address_width_bytes (drv s)),
     address_width_bytes (drv s)).
Proof.
  intros H.
  unfold nrf_driver_rx_destination, w_register, r_register_byte, spi_manager_transfer,
    modify_drv, get_drv, bind, ret, emit in H.
  run_bus H; inversion H; reflexivity.
Qed.

(** Entering receive mode with the flag set writes the cached address. *)
Lemma receiver_mode_restores_p0 (s s' : st) (r : fn_status_t) :
  is_rx_addr_p0 (drv s) = true ->
  nrf_driver_receiver_mode s = Some (r, s') ->
  last_write RX_ADDR_P0 (trace s') =
    Some (firstn (address_width_bytes (drv s)) (rx_addr_p0 (drv s))).
Proof.
  intros Hf H.
  unfold nrf_driver_receiver_mode, set_mode, w_register, r_register_byte,
    spi_manager_transfer, modify_drv, get_drv, bind, ret, emit in H.
  run_bus H; try congruence; inversion H; reflexivity.
Qed.

Lemma firstn_memcpy (dst src : list Z) (n : nat) :
  (n <= length src)%nat -> firstn n (memcpy dst src n) = firstn n src.
Proof.
  intros Hn. unfold memcpy.
  rewrite firstn_app, firstn_firstn, Nat.min_id, length_firstn.
  replace (n - Nat.min n (length src))%nat with 0%nat by lia.
  simpl. apply app_nil_r.
Qed.

(** C1 *)
(** Claim C1: after [nrf_driver_rx_destination] assigns address [A] to pipe
    0, any sequence of further calls (sends, TX destination changes, which
    overwrite RX_ADDR_P0, standby, packet checks and reads, channel and
    payload-size changes) followed by [nrf_driver_receiver_mode] leaves as
    the newest RX_ADDR_P0 write the first [address_width_bytes] bytes of [A].
    The buffer must hold at least that many bytes. *)
Theorem rx_addr_p0_restored (A : list Z) (ops : list op) (s s1 s2 s3 : st)
    (r1 r3 : fn_status_t) :
  (address_width_bytes (drv s) <= length A)%nat ->
  nrf_driver_rx_destination DATA_PIPE_0 A s = Some (r1, s1) ->
  run_ops ops s1 = Some (tt, s2) ->
  nrf_driver_receiver_mode s2 = Some (r3, s3) ->
  last_write RX_ADDR_P0 (trace s3) = Some (firstn (address_width_bytes (drv s)) A).
Proof.
  intros Hlen H1 H2 H3.
  pose proof (rx_destination_p0_cache A s s1 r1 H1) as P1.
  pose proof (keeps_run_ops ops s1 tt s2 H2) as P2.
  rewrite P1 in P2. unfold p0_view in P2. inversion P2 as [[Hf Ha Hw]].
  rewrite (receiver_mode_restores_p0 s2 s3 r3 Hf H3), Ha, Hw.
  rewrite firstn_memcpy by exact Hlen. reflexivity.
Qed.

(** *** Concrete runs *)

(** Evaluates the computation in an [exists .., m = Some .. /\ _] goal and
    supplies its results, keeping the equation as a hypothesis. *)
Ltac step_eq :=
  match goal with
  | |- exists (a : _) (b : _) (c : _), ?m = Some ((a, b), c) /\ _ =>
      let v := eval vm_compute in m in
      lazymatch v with
      | Some ((?x, ?y), ?z) =>
          let E := fresh "E" in
          assert (E : m = Some ((x, y), z)) by (vm_compute; reflexivity);
          exists x, y, z; split; [exact E | ]
      end
  | |- exists (a : _) (b : _), ?m = Some (a, b) /\ _ =>
      let v := eval vm_compute in m in
      lazymatch v with
      | Some (?x, ?y) =>
          let E := fresh "E" in
          assert (E : m = Some (x, y)) by (vm_compute; reflexivity);
          exists x, y; split; [exact E | ]
      end
  | |- exists (b : _), ?m = Some (tt, b) /\ _ =>
      let v := eval vm_compute in m in
      lazymatch v with
      | Some (tt, ?y) =>
          let E := fresh "E" in
          assert (E : m = Some (tt, y)) by (vm_compute; reflexivity);
          exists y; split; [exact E | ]
      end
  end.

Lemma rx_addr_p0_restored_witness :
  let s := st0 (repeat (ok_resp [0; 0]) 6 ++ [ok_resp [0; 0x20]] ++ repeat (ok_resp [0; 0]) 6) in
  (address_width_bytes (drv s) <= length [1; 2; 3; 4; 5])%nat /\
  exists r1 s1, nrf_driver_rx_destination DATA_PIPE_0 [1; 2; 3; 4; 5] s = Some (r1, s1) /\
  exists s2, run_ops [OpTxDestination [9; 9; 9; 9; 9]; OpSend [7] 1] s1 = Some (tt, s2) /\
  exists r3 s3, nrf_driver_receiver_mode s2 = Some (r3, s3) /\
  last_write RX_ADDR_P0 (trace s3) = Some (firstn (address_width_bytes (drv s)) [1; 2; 3; 4; 5]).
Proof.
  intros s. assert (L : (address_width_bytes (drv s) <= length [1; 2; 3; 4; 5])%nat)
    by (vm_compute; lia).
  split; [exact L |].
  do 3 step_eq.
  eapply rx_addr_p0_restored; eassumption.
Defined.

Lemma send_wait_stops_at_completion_witness :
  let s := st0 (flat_map poll_resps ([0x00; 0x0F] ++ [0x30]) ++ [ok_resp [0]]) in
  Forall (fun w => irq_classify (u8 w) = NONE_ASSERTED) [0x00; 0x0F] /\
  irq_bit (u8 0x30) STATUS_TX_DS || irq_bit (u8 0x30) STATUS_MAX_RT = true /\
  bus s = flat_map poll_resps ([0x00; 0x0F] ++ [0x30]) ++ [ok_resp [0]] /\
  exists s', send_wait SPI_MNGR_OK s =
             Some (if irq_bit (u8 0x30) STATUS_MAX_RT then MAX_RT_ASSERTED else TX_DS_ASSERTED, s')
             /\ bus s' = [ok_resp [0]].
Proof.
  intros s.
  assert (F : Forall (fun w => irq_classify (u8 w) = NONE_ASSERTED) [0x00; 0x0F])
    by (repeat constructor).
  assert (B : irq_bit (u8 0x30) STATUS_TX_DS || irq_bit (u8 0x30) STATUS_MAX_RT = true)
    by reflexivity.
  assert (S : bus s = flat_map poll_resps ([0x00; 0x0F] ++ [0x30]) ++ [ok_resp [0]])
    by reflexivity.
  split; [exact F | split; [exact B | split; [exact S | ]]].
  exact (send_wait_stops_at_completion [0x00; 0x0F] 0x30 [ok_resp [0]] s F B S).
Defined.

Lemma read_packet_width_check_witness :
  let s := {| drv := with_config nrf_driver_init (set_dyn_payloads default_config 1);
              trace := []; bus := [ok_resp [0; 200]; ok_resp [0; 7]] |} in
  dyn_payloads (user_config (drv s)) <> 0 /\
  bus s = ok_resp [0; 200] :: [ok_resp [0; 7]] /\
  exists r buf' s', nrf_driver_read_packet [1; 2] 2 s = Some ((r, buf'), s') /\
  ((MAX_BYTES < u8 (nth 1 (r_rx (ok_resp [0; 200])) 0) ->
     r = ERROR /\ buf' = [1; 2] /\ bus s' = [ok_resp [0; 7]] /\
     trace s' = SpiDeinit :: SleepUs 2 :: WriteOnly [FLUSH_RX] :: SleepUs 2 ::
                Xfer [R_RX_PL_WID; NOP] :: SpiInit :: trace s) /\
   (u8 (nth 1 (r_rx (ok_resp [0; 200])) 0) <= MAX_BYTES -> r_ok (ok_resp [0; 200]) = true ->
     exists rsp2 rest2, [ok_resp [0; 7]] = rsp2 :: rest2 /\ bus s' = rest2 /\
       trace s' = SpiDeinit :: Xfer (R_RX_PAYLOAD :: repeat NOP 2) ::
                  Xfer [R_RX_PL_WID; NOP] :: SpiInit :: trace s)).
Proof.
  intros s.
  assert (D : dyn_payloads (user_config (drv s)) <> 0) by (vm_compute; congruence).
  assert (B : bus s = ok_resp [0; 200] :: [ok_resp [0; 7]]) by reflexivity.
  split; [exact D | split; [exact B | ]].
  step_eq.
  exact (read_packet_width_check [1; 2] 2 s _ _ _ _ _ D B E).
Defined.

Lemma rx_destination_pipe_write_witness :
  let s := st0 [ok_resp [0]; ok_resp [0; 0x03]; ok_resp [0]] in
  0 <= 3 < ALL_DATA_PIPES /\ [7; 8; 9] <> [] /\
  exists r s', nrf_driver_rx_destination 3 [7; 8; 9] s = Some (r, s') /\
  exists later,
    trace s' = later ++
               Xfer (Z.lor (Z.land REGISTER_MASK (nth (Z.to_nat 3) rx_registers 0))
                           W_REGISTER
                     :: (if 3 <? DATA_PIPE_2
                         then firstn (address_width_bytes (drv s)) [7; 8; 9]
                         else [hd 0 [7; 8; 9]]))
               :: SpiInit :: trace s /\
    (later = [SpiDeinit; Xfer [EN_RXADDR; NOP]] \/
     exists e, later = [SpiDeinit; Xfer [Z.lor (Z.land REGISTER_MASK EN_RXADDR) W_REGISTER; e];
                        Xfer [EN_RXADDR; NOP]]).
Proof.
  intros s.
  assert (P : 0 <= 3 < ALL_DATA_PIPES) by (unfold ALL_DATA_PIPES; lia).
  assert (N : [7; 8; 9] <> []) by discriminate.
  split; [exact P | split; [exact N | ]].
  step_eq.
  exact (rx_destination_pipe_write 3 [7; 8; 9] s _ _ P N E).
Defined.

Lemma payload_size_range_witness :
  let s := st0 (repeat (ok_resp [0]) 6) in
  0 <= 2 <= ALL_DATA_PIPES /\
  (~ (1 <= 33 <= 32) ->
     nrf_driver_payload_size 2 33 s
     = Some (ERROR, {| drv := drv s; trace := SpiDeinit :: SpiInit :: trace s; bus := bus s |})) /\
  (1 <= 33 <= 32 -> Forall (fun r => r_ok r = true) (bus s) -> (6 <= length (bus s))%nat ->
     exists s', nrf_driver_payload_size 2 33 s = Some (SPI_MNGR_OK, s')).
Proof.
  intros s.
  assert (P : 0 <= 2 <= ALL_DATA_PIPES) by (unfold ALL_DATA_PIPES; lia).
  split; [exact P | exact (payload_size_range 2 33 s P)].
Defined.

Lemma check_status_irq_clears_each_witness :
  exists irq p s', check_status_irq true (st0 (poll_resps 0x70)) = Some ((irq, p), s') /\
  exists (rsp : resp) (rest : list resp), bus (st0 (poll_resps 0x70)) = rsp :: rest /\
    (let v := u8 (nth 1 (r_rx rsp) 0) in
     irq = irq_classify v /\ trace s' = irq_events v ++ trace (st0 (poll_resps 0x70))).
Proof.
  step_eq. exact (check_status_irq_clears_each true _ _ _ _ E).
Defined.

Lemma rf_channel_cache_atomic_witness :
  let s := st0 [{| r_ok := false; r_rx := [0; 0] |}] in
  exists r s', nrf_driver_rf_channel 76 s = Some (r, s') /\
  (2 <= 76 <= 125 ->
     (exists rsp rest,
         bus s = rsp :: rest /\ bus s' = rest /\
         trace s' = Xfer [Z.lor (Z.land REGISTER_MASK RF_CH) W_REGISTER; 76] :: trace s /\
         r = (if r_ok rsp then SPI_MNGR_OK else ERROR)) /\
     drv s' = with_config (drv s)
                (set_channel (user_config (drv s))
                   (if fn_status_eqb r SPI_MNGR_OK then 76 else channel (user_config (drv s))))) /\
  (~ (2 <= 76 <= 125) -> r = ERROR /\ s' = s).
Proof.
  intros s. step_eq. exact (rf_channel_cache_atomic 76 s _ _ E).
Defined.

(** ** Further properties of the driver *)


(** Bits 0 to 7 of a byte. *)
Lemma u8_testbit (z k : Z) : 0 <= k < 8 -> Z.testbit (u8 z) k = Z.testbit z k.
Proof.
  intros Hk. unfold u8. rewrite Z.land_spec.
  assert (E : k = 0 \/ k = 1 \/ k = 2 \/ k = 3 \/ k = 4 \/ k = 5 \/ k = 6 \/ k = 7) by lia.
  destruct E as [->|[->|[->|[->|[->|[->|[->| ->]]]]]]]; simpl; apply andb_true_r.
Qed.

Ltac bits k :=
  let E := fresh in
  assert (E : k = 0 \/ k = 1 \/ k = 2 \/ k = 3 \/ k = 4 \/ k = 5 \/ k = 6 \/ k = 7) by lia;
  destruct E as [->|[->|[->|[->|[->|[->|[->| ->]]]]]]].

(** [nrf_driver_dyn_payloads_enable] with the cached flag off: FEATURE is
    read, written back with EN_DPL set and its other bits kept, the cached
    flag follows the FEATURE write, and DYNPD is written only if that write
    succeeded. *)
Theorem dyn_payloads_enable_acts (s s' : st) (r : fn_status_t) :
  dyn_payloads (user_config (drv s)) = DYNPD_DISABLE ->
  nrf_driver_dyn_payloads_enable s = Some (r, s') ->
  exists rsp1 rsp2 rest feature,
    bus s = rsp1 :: rsp2 :: rest /\
    (forall k, 0 <= k < 8 ->
       Z.testbit feature k = if k =? FEATURE_EN_DPL then true
                             else Z.testbit (nth 1 (r_rx rsp1) 0) k) /\
    dyn_payloads (user_config (drv s')) = (if r_ok rsp2 then DYNPD_ENABLE else DYNPD_DISABLE) /\
    (r_ok rsp2 = true ->
       exists rsp3, rest = rsp3 :: bus s' /\ r = (if r_ok rsp3 then SPI_MNGR_OK else ERROR) /\
         trace s' = SpiDeinit :: Xfer [Z.lor (Z.land REGISTER_MASK DYNPD) W_REGISTER; DYNPD_ENABLE] ::
                    Xfer [Z.lor (Z.land REGISTER_MASK FEATURE) W_REGISTER; feature] ::
                    Xfer [FEATURE; NOP] :: SpiInit :: trace s) /\
    (r_ok rsp2 = false ->
       r = ERROR /\ bus s' = rest /\
       trace s' = SpiDeinit :: Xfer [Z.lor (Z.land REGISTER_MASK FEATURE) W_REGISTER; feature] ::
                  Xfer [FEATURE; NOP] :: SpiInit :: trace s).
Proof.
  intros Hd H.
  unfold nrf_driver_dyn_payloads_enable, r_register_byte, w_register, spi_manager_transfer,
    modify_drv, get_drv, bind, ret, emit in H.
  simpl in H. rewrite Hd in H. simpl in H.
  destruct (bus s) as [|rsp1 [|rsp2 rest]] eqn:B; try discriminate H.
  exists rsp1, rsp2, rest, (u8 (Z.lor (u8 (nth 1 (r_rx rsp1) 0)) (Z.shiftl SET_BIT FEATURE_EN_DPL))).
  split; [reflexivity|]. split.
  { intros k Hk. rewrite u8_testbit, Z.lor_spec, u8_testbit by exact Hk.
    bits k; simpl; rewrite ?orb_false_r, ?orb_true_r; reflexivity. }
  destruct rsp2 as [ok2 rx2]; destruct ok2; simpl in H |- *.
  - destruct rest as [|rsp3 rest3]; [discriminate H|].
    inversion H; subst; clear H. simpl.
    split; [reflexivity|]. split; [intros _; exists rsp3; repeat split; reflexivity|].
    intros; discriminate.
  - inversion H; subst; clear H. simpl.
    split; [reflexivity|]. split; [intros; discriminate|].
    intros _. repeat split; reflexivity.
Qed.

(** [nrf_driver_dyn_payloads_enable] with the cached flag not off makes no
    transfer and returns SPI_MNGR_OK. *)
Theorem dyn_payloads_enable_noop (s : st) :
  dyn_payloads (user_config (drv s)) <> DYNPD_DISABLE ->
  nrf_driver_dyn_payloads_enable s =
    Some (SPI_MNGR_OK, {| drv := drv s; trace := SpiDeinit :: SpiInit :: trace s; bus := bus s |}).
Proof.
  intros Hd. unfold nrf_driver_dyn_payloads_enable, get_drv, bind, ret, emit. simpl.
  rewrite (proj2 (Z.eqb_neq _ _) Hd). reflexivity.
Qed.

(** [nrf_driver_dyn_payloads_disable] with the cached flag on: FEATURE is
    read, written back with EN_DPL cleared and its other bits kept, the
    cached flag follows the FEATURE write, and DYNPD is written only if that
    write succeeded. *)
Theorem dyn_payloads_disable_acts (s s' : st) (r : fn_status_t) :
  dyn_payloads (user_config (drv s)) = DYNPD_ENABLE ->
  nrf_driver_dyn_payloads_disable s = Some (r, s') ->
  exists rsp1 rsp2 rest feature,
    bus s = rsp1 :: rsp2 :: rest /\
    (forall k, 0 <= k < 8 ->
       Z.testbit feature k = if k =? FEATURE_EN_DPL then false
                             else Z.testbit (nth 1 (r_rx rsp1) 0) k) /\
    dyn_payloads (user_config (drv s')) = (if r_ok rsp2 then DYNPD_DISABLE else DYNPD_ENABLE) /\
    (r_ok rsp2 = true ->
       exists rsp3, rest = rsp3 :: bus s' /\ r = (if r_ok rsp3 then SPI_MNGR_OK else ERROR) /\
         trace s' = SpiDeinit :: Xfer [Z.lor (Z.land REGISTER_MASK DYNPD) W_REGISTER; DYNPD_DISABLE] ::
                    Xfer [Z.lor (Z.land REGISTER_MASK FEATURE) W_REGISTER; feature] ::
                    Xfer [FEATURE; NOP] :: SpiInit :: trace s) /\
    (r_ok rsp2 = false ->
       r = ERROR /\ bus s' = rest /\
       trace s' = SpiDeinit :: Xfer [Z.lor (Z.land REGISTER_MASK FEATURE) W_REGISTER; feature] ::
                  Xfer [FEATURE; NOP] :: SpiInit :: trace s).
Proof.
  intros Hd H.
  unfold nrf_driver_dyn_payloads_disable, r_register_byte, w_register, spi_manager_transfer,
    modify_drv, get_drv, bind, ret, emit in H.
  simpl in H. rewrite Hd in H. simpl in H.
  destruct (bus s) as [|rsp1 [|rsp2 rest]] eqn:B; try discriminate H.
  exists rsp1, rsp2, rest,
    (u8 (Z.land (u8 (nth 1 (r_rx rsp1) 0)) (Z.lnot (Z.shiftl SET_BIT FEATURE_EN_DPL)))).
  split; [reflexivity|]. split.
  { intros k Hk. rewrite u8_testbit, Z.land_spec, u8_testbit by exact Hk.
    bits k; simpl; rewrite ?andb_false_r, ?andb_true_r; reflexivity. }
  destruct rsp2 as [ok2 rx2]; destruct ok2; simpl in H |- *.
  - destruct rest as [|rsp3 rest3]; [discriminate H|].
    inversion H; subst; clear H. simpl.
    split; [reflexivity|]. split; [intros _; exists rsp3; repeat split; reflexivity|].
    intros; discriminate.
  - inversion H; subst; clear H. simpl.
    split; [reflexivity|]. split; [intros; discriminate|].
    intros _. repeat split; reflexivity.
Qed.

(** [nrf_driver_dyn_payloads_disable] with the cached flag not on makes no
    transfer and returns NRF_MNGR_OK. *)
Theorem dyn_payloads_disable_noop (s : st) :
  dyn_payloads (user_config (drv s)) <> DYNPD_ENABLE ->
  nrf_driver_dyn_payloads_disable s =
    Some (NRF_MNGR_OK, {| drv := drv s; trace := SpiDeinit :: SpiInit :: trace s; bus := bus s |}).
Proof.
  intros Hd. unfold nrf_driver_dyn_payloads_disable, get_drv, bind, ret, emit. simpl.
  rewrite (proj2 (Z.eqb_neq _ _) Hd). reflexivity.
Qed.
(** [nrf_driver_auto_retransmission] writes SETUP_RETR only for a count up
    to 15 and a delay of 250, 500 or 750 us (1000 us is refused), and the
    byte written is the one stored at address [delay | count]. *)
Theorem auto_retransmission_params (mem : Z -> Z) (delay count : Z) (s s' : st) (r : fn_status_t) :
  nrf_driver_auto_retransmission mem delay count s = Some (r, s') ->
  (count <= ARC_15RT /\ (delay = ARD_250US \/ delay = ARD_500US \/ delay = ARD_750US) ->
     exists rsp, bus s = rsp :: bus s' /\ drv s' = drv s /\
       r = (if r_ok rsp then SPI_MNGR_OK else ERROR) /\
       trace s' = SpiDeinit :: Xfer [Z.lor (Z.land REGISTER_MASK SETUP_RETR) W_REGISTER;
                                     u8 (mem (Z.lor delay count))] :: SpiInit :: trace s) /\
  (~ (count <= ARC_15RT /\ (delay = ARD_250US \/ delay = ARD_500US \/ delay = ARD_750US)) ->
     r = ERROR /\
     s' = {| drv := drv s; trace := SpiDeinit :: SpiInit :: trace s; bus := bus s |}).
Proof.
  intros H.
  assert (F : for_range 0 (48 - 1) 16 = [0; 16; 32]) by reflexivity.
  unfold nrf_driver_auto_retransmission, w_register, spi_manager_transfer,
    bind, ret, emit in H.
  rewrite F in H. unfold ARD_250US, ARD_500US, ARD_750US, ARC_15RT in *. simpl in *.
  destruct (count <=? 15) eqn:C; zbool;
  destruct (delay =? 0) eqn:D0; destruct (delay =? 16) eqn:D1; destruct (delay =? 32) eqn:D2;
  zbool; try lia; simpl in H;
  try (split; [ intros [? [?|[?|?]]]; lia
              | intros _; inversion H; subst; split; reflexivity ]).
  all: destruct (bus s) as [|rsp rest]; [discriminate H|];
       inversion H; subst; clear H; simpl;
       (split; [intros _; exists rsp; repeat split; reflexivity | intros N; exfalso; apply N; lia]).
Qed.

(** [nrf_driver_rf_data_rate]: for a valid rate the RF_SETUP write keeps
    the power bits (1, 2) read from the chip and takes every other bit from
    the rate; an invalid rate returns ERROR without de-initialising SPI. *)
Theorem rf_data_rate_keeps_power (data_rate : Z) (s s' : st) (r : fn_status_t) :
  nrf_driver_rf_data_rate data_rate s = Some (r, s') ->
  ((data_rate = RF_DR_1MBPS \/ data_rate = RF_DR_2MBPS \/ data_rate = RF_DR_250KBPS) ->
     exists rsp1 rsp2 rf_setup,
       bus s = rsp1 :: rsp2 :: bus s' /\ drv s' = drv s /\
       r = (if r_ok rsp2 then SPI_MNGR_OK else ERROR) /\
       trace s' = SpiDeinit :: Xfer [Z.lor (Z.land REGISTER_MASK RF_SETUP) W_REGISTER; rf_setup] ::
                  Xfer [RF_SETUP; NOP] :: SpiInit :: trace s /\
       (forall k, 0 <= k < 8 ->
          Z.testbit rf_setup k = if (k =? 1) || (k =? 2) then Z.testbit (nth 1 (r_rx rsp1) 0) k
                                 else Z.testbit data_rate k)) /\
  (~ (data_rate = RF_DR_1MBPS \/ data_rate = RF_DR_2MBPS \/ data_rate = RF_DR_250KBPS) ->
     r = ERROR /\ s' = {| drv := drv s; trace := SpiInit :: trace s; bus := bus s |}).
Proof.
  intros H.
  unfold nrf_driver_rf_data_rate, r_register_byte, w_register, spi_manager_transfer,
    bind, ret, emit in H.
  unfold RF_DR_1MBPS, RF_DR_2MBPS, RF_DR_250KBPS in *. simpl in *.
  destruct (data_rate =? 0) eqn:D0; [|destruct (data_rate =? 8) eqn:D1;
    [|destruct (data_rate =? 32) eqn:D2]]; zbool; simpl in H;
  try (split; [intros [?|[?|?]]; lia | intros _; inversion H; subst; split; reflexivity]);
  subst;
  (destruct (bus s) as [|rsp1 [|rsp2 rest]]; try discriminate H);
  inversion H; subst; clear H; simpl;
  (split; [| intros N; exfalso; apply N; lia]);
  intros _; eexists rsp1, rsp2, _; repeat split;
  intros k Hk; rewrite u8_testbit, Z.lor_spec, !Z.land_spec, u8_testbit by exact Hk;
  bits k; simpl; rewrite ?andb_false_r, ?andb_true_r, ?orb_false_r; reflexivity.
Qed.

(** [nrf_driver_rf_power]: only -18, -12 and -6 dBm are accepted (0 dBm is
    refused); the RF_SETUP write keeps the data-rate bits (3, 5) read from
    the chip and takes every other bit from the power value. *)
Theorem rf_power_keeps_data_rate (rf_pwr : Z) (s s' : st) (r : fn_status_t) :
  nrf_driver_rf_power rf_pwr s = Some (r, s') ->
  ((rf_pwr = RF_PWR_NEG_18DBM \/ rf_pwr = RF_PWR_NEG_12DBM \/ rf_pwr = RF_PWR_NEG_6DBM) ->
     exists rsp1 rsp2 rf_setup,
       bus s = rsp1 :: rsp2 :: bus s' /\ drv s' = drv s /\
       r = (if r_ok rsp2 then SPI_MNGR_OK else ERROR) /\
       trace s' = SpiDeinit :: Xfer [Z.lor (Z.land REGISTER_MASK RF_SETUP) W_REGISTER; rf_setup] ::
                  Xfer [RF_SETUP; NOP] :: SpiInit :: trace s /\
       (forall k, 0 <= k < 8 ->
          Z.testbit rf_setup k = if (k =? 3) || (k =? 5) then Z.testbit (nth 1 (r_rx rsp1) 0) k
                                 else Z.testbit rf_pwr k)) /\
  (~ (rf_pwr = RF_PWR_NEG_18DBM \/ rf_pwr = RF_PWR_NEG_12DBM \/ rf_pwr = RF_PWR_NEG_6DBM) ->
     r = ERROR /\ s' = {| drv := drv s; trace := SpiDeinit :: SpiInit :: trace s; bus := bus s |}).
Proof.
  intros H.
  assert (F : for_range 0 (6 - 1) 2 = [0; 2; 4]) by reflexivity.
  unfold nrf_driver_rf_power, r_register_byte, w_register, spi_manager_transfer,
    bind, ret, emit in H.
  rewrite F in H.
  unfold RF_PWR_NEG_18DBM, RF_PWR_NEG_12DBM, RF_PWR_NEG_6DBM in *. simpl in *.
  destruct (rf_pwr =? 0) eqn:D0; [|destruct (rf_pwr =? 2) eqn:D1;
    [|destruct (rf_pwr =? 4) eqn:D2]]; zbool; simpl in H;
  try (split; [intros [?|[?|?]]; lia | intros _; inversion H; subst; split; reflexivity]);
  subst;
  (destruct (bus s) as [|rsp1 [|rsp2 rest]]; try discriminate H);
  inversion H; subst; clear H; simpl;
  (split; [| intros N; exfalso; apply N; lia]);
  intros _; eexists rsp1, rsp2, _; repeat split;
  intros k Hk; rewrite u8_testbit, Z.lor_spec, !Z.land_spec, u8_testbit by exact Hk;
  bits k; simpl; rewrite ?andb_false_r, ?andb_true_r, ?orb_false_r; reflexivity.
Qed.

Lemma land_shiftr_1 (x n : Z) : 0 <= n ->
  Z.land (Z.shiftr x n) 1 = if Z.testbit x n then 1 else 0.
Proof.
  intros Hn.
  assert (L : Z.land (Z.shiftr x n) (Z.ones 1) = Z.shiftr x n mod 2 ^ 1) by (apply Z.land_ones; lia).
  change (Z.ones 1) with 1 in L. change (2 ^ 1) with 2 in L.
  rewrite L, Zmod_odd, <- Z.bit0_odd, Z.shiftr_spec by lia. reflexivity.
Qed.

Lemma irq_bit_testbit (v n : Z) : 0 <= n -> irq_bit v n = Z.testbit v n.
Proof.
  intros Hn. unfold irq_bit, SET_BIT. rewrite land_shiftr_1 by exact Hn.
  destruct (Z.testbit v n); reflexivity.
Qed.

(** [nrf_driver_is_packet] reads STATUS once and clears each interrupt bit
    it shows. It returns NRF_MNGR_OK only when data-received is set and
    neither data-sent nor max-retries is; the pipe number is reported
    whenever data-received is set, and the driver state is unchanged. *)
Theorem is_packet_reports_rx_only (s s' : st) (r : fn_status_t) (p : option Z) :
  nrf_driver_is_packet s = Some ((r, p), s') ->
  exists rsp rest, bus s = rsp :: rest /\
    (let v := u8 (nth 1 (r_rx rsp) 0) in
     r = (if Z.testbit v STATUS_RX_DR && negb (Z.testbit v STATUS_TX_DS)
             && negb (Z.testbit v STATUS_MAX_RT) then NRF_MNGR_OK else ERROR) /\
     p = (if Z.testbit v STATUS_RX_DR
          then Some (Z.land (Z.shiftr v STATUS_RX_P_NO) STATUS_RX_P_NO_MASK) else None) /\
     drv s' = drv s /\
     trace s' = SpiDeinit :: irq_events v ++ SpiInit :: trace s).
Proof.
  intros H.
  unfold nrf_driver_is_packet, check_status_irq, r_register_byte, w_register,
    spi_manager_transfer, flush_tx_fifo, bind, ret, emit in H.
  simpl in H.
  destruct (bus s) as [|rsp rest] eqn:B; [discriminate H|].
  exists rsp, rest. split; [reflexivity|]. cbv zeta.
  rewrite <- !irq_bit_testbit by (unfold STATUS_RX_DR, STATUS_TX_DS, STATUS_MAX_RT; lia).
  run_bus H; inversion H; subst; clear H;
    unfold irq_events, irq_bit; simpl; rewrite_bools; simpl; repeat split; reflexivity.
Qed.

(** [nrf_driver_standby_mode] always returns NRF_MNGR_OK. From receive
    mode it reads CONFIG, writes it back with PRIM_RX cleared and the other
    bits kept, drives CE low and records STANDBY_I; in any other mode it only
    initialises and de-initialises SPI. *)
Theorem standby_mode_clears_prim_rx (s s' : st) (r : fn_status_t) :
  nrf_driver_standby_mode s = Some (r, s') ->
  r = NRF_MNGR_OK /\
  (mode (drv s) = RX_MODE ->
     exists rsp1 rsp2 config,
       bus s = rsp1 :: rsp2 :: bus s' /\ drv s' = with_mode (drv s) STANDBY_I /\
       trace s' = SpiDeinit :: SleepUs 130 :: CE false ::
                  Xfer [Z.lor (Z.land REGISTER_MASK CONFIG) W_REGISTER; config] ::
                  Xfer [CONFIG; NOP] :: SpiInit :: trace s /\
       (forall k, 0 <= k < 8 ->
          Z.testbit config k = if k =? CONFIG_PRIM_RX then false
                               else Z.testbit (nth 1 (r_rx rsp1) 0) k)) /\
  (mode (drv s) <> RX_MODE ->
     s' = {| drv := drv s; trace := SpiDeinit :: SpiInit :: trace s; bus := bus s |}).
Proof.
  intros H.
  unfold nrf_driver_standby_mode, r_register_byte, w_register, spi_manager_transfer,
    set_mode, modify_drv, get_drv, bind, ret, emit in H.
  simpl in H.
  destruct (mode (drv s)) eqn:Md; simpl in H;
    try (inversion H; subst; clear H; split; [reflexivity|];
         split; [intros; discriminate | intros _; reflexivity]).
  destruct (bus s) as [|rsp1 [|rsp2 rest]] eqn:B; try discriminate H.
  inversion H; subst; clear H. simpl.
  split; [reflexivity|]. split; [|intros N; exfalso; apply N; reflexivity].
  intros _. eexists rsp1, rsp2, _. repeat split.
  intros k Hk. rewrite u8_testbit, Z.land_spec, Z.lnot_spec, u8_testbit by lia.
  bits k; simpl; rewrite ?andb_false_r, ?andb_true_r; reflexivity.
Qed.

(** [nrf_driver_receiver_mode] records RX_MODE whatever the bus does. It
    reads CONFIG and writes it back with PRIM_RX set only if that bit was
    clear, re-writes RX_ADDR_P0 from the cache when one is held, and drives
    CE high. *)
Theorem receiver_mode_sets_prim_rx (s s' : st) (r : fn_status_t) :
  nrf_driver_receiver_mode s = Some (r, s') ->
  exists rsp1 rest, bus s = rsp1 :: rest /\
    (let config := nth 1 (r_rx rsp1) 0 in
     let p0 := if is_rx_addr_p0 (drv s)
               then [Xfer (Z.lor (Z.land REGISTER_MASK RX_ADDR_P0) W_REGISTER
                           :: firstn (address_width_bytes (drv s)) (rx_addr_p0 (drv s)))]
               else [] in
     drv s' = with_mode (drv s) RX_MODE /\
     (Z.testbit config CONFIG_PRIM_RX = true ->
        r = NRF_MNGR_OK /\
        trace s' = SpiDeinit :: SleepUs 130 :: CE true :: p0 ++ Xfer [CONFIG; NOP] :: SpiInit :: trace s) /\
     (Z.testbit config CONFIG_PRIM_RX = false ->
        exists rsp2 config', hd_error rest = Some rsp2 /\
          r = (if r_ok rsp2 then SPI_MNGR_OK else ERROR) /\
          (forall k, 0 <= k < 8 ->
             Z.testbit config' k = if k =? CONFIG_PRIM_RX then true else Z.testbit config k) /\
          trace s' = SpiDeinit :: SleepUs 130 :: CE true :: p0 ++
                     Xfer [Z.lor (Z.land REGISTER_MASK CONFIG) W_REGISTER; config'] ::
                     Xfer [CONFIG; NOP] :: SpiInit :: trace s)).
Proof.
  intros H.
  unfold nrf_driver_receiver_mode, r_register_byte, w_register, spi_manager_transfer,
    set_mode, modify_drv, get_drv, bind, ret, emit in H.
  simpl in H.
  destruct (bus s) as [|rsp1 rest] eqn:B; [discriminate H|].
  exists rsp1, rest. split; [reflexivity|]. cbv zeta.
  unfold CONFIG_PRIM_RX, SET_BIT in *.
  rewrite land_shiftr_1, u8_testbit in H by lia.
  rewrite Z.bit0_odd in H |- *.
  match type of H with context [if Z.odd ?c then _ else _] => destruct (Z.odd c) eqn:P end;
  simpl in H.
  - destruct (is_rx_addr_p0 (drv s)) eqn:A; simpl in H.
    + destruct rest as [|rsp2 rest2]; [discriminate H|].
      inversion H; subst; clear H. simpl. rewrite ?A.
      split; [reflexivity|]. split; [intros _; split; reflexivity | intros Q; simpl in P; congruence].
    + inversion H; subst; clear H. simpl. rewrite ?A.
      split; [reflexivity|]. split; [intros _; split; reflexivity | intros Q; simpl in P; congruence].
  - destruct rest as [|rsp2 rest2]; [discriminate H|]. simpl in H.
    destruct (is_rx_addr_p0 (drv s)) eqn:A; simpl in H.
    + destruct rest2 as [|rsp3 rest3]; [discriminate H|].
      inversion H; subst; clear H. simpl. rewrite ?A.
      split; [reflexivity|]. split; [intros Q; simpl in P; congruence|].
      intros _. eexists rsp2, _. split; [reflexivity|]. split; [reflexivity|].
      split; [|reflexivity].
      intros k Hk. rewrite u8_testbit, Z.lor_spec, u8_testbit by lia.
      bits k; simpl; rewrite ?orb_false_r, ?orb_true_r; reflexivity.
    + inversion H; subst; clear H. simpl. rewrite ?A.
      split; [reflexivity|]. split; [intros Q; simpl in P; congruence|].
      intros _. eexists rsp2, _. split; [reflexivity|]. split; [reflexivity|].
      split; [|reflexivity].
      intros k Hk. rewrite u8_testbit, Z.lor_spec, u8_testbit by lia.
      bits k; simpl; rewrite ?orb_false_r, ?orb_true_r; reflexivity.
Qed.

Lemma testbit_one (j : Z) : Z.testbit 1 j = (j =? 0).
Proof. destruct j; reflexivity. Qed.

(** [nrf_driver_rx_destination]: a pipe number of 6 or more returns ERROR
    without a transfer; EN_RXADDR is written back only when the pipe's bit
    was clear, with that bit set and the others kept, and the status returned
    is that of the last write; only pipe 0 changes the driver state. *)
Theorem rx_destination_status (data_pipe : Z) (buffer : list Z) (s s' : st) (r : fn_status_t) :
  0 <= data_pipe ->
  nrf_driver_rx_destination data_pipe buffer s = Some (r, s') ->
  (data_pipe <> DATA_PIPE_0 -> drv s' = drv s) /\
  (ALL_DATA_PIPES <= data_pipe ->
     r = ERROR /\ bus s' = bus s /\ trace s' = SpiDeinit :: SpiInit :: trace s) /\
  (data_pipe < ALL_DATA_PIPES ->
     exists rsp1 rsp2 rest, bus s = rsp1 :: rsp2 :: rest /\
       (let en_rxaddr := nth 1 (r_rx rsp2) 0 in
        (Z.testbit en_rxaddr data_pipe = true ->
           r = (if r_ok rsp1 then SPI_MNGR_OK else ERROR) /\ bus s' = rest) /\
        (Z.testbit en_rxaddr data_pipe = false ->
           exists rsp3 en' tr, rest = rsp3 :: bus s' /\
             r = (if r_ok rsp3 then SPI_MNGR_OK else ERROR) /\
             (forall k, 0 <= k < 8 ->
                Z.testbit en' k = if k =? data_pipe then true else Z.testbit en_rxaddr k) /\
             trace s' = SpiDeinit :: Xfer [Z.lor (Z.land REGISTER_MASK EN_RXADDR) W_REGISTER; en'] ::
                        Xfer [EN_RXADDR; NOP] :: tr))).
Proof.
  intros Hp H.
  unfold nrf_driver_rx_destination, w_register, r_register_byte, spi_manager_transfer,
    modify_drv, get_drv, bind, ret, emit in H.
  simpl in H.
  destruct (data_pipe =? DATA_PIPE_0) eqn:P0; simpl in H;
  (destruct (data_pipe <? ALL_DATA_PIPES) eqn:L; simpl in H;
   [| inversion H; subst; clear H; simpl; zbool; unfold DATA_PIPE_0, ALL_DATA_PIPES in *;
      (split; [intros; try lia; reflexivity|]);
      (split; [intros _; repeat split; reflexivity | intros; lia])]).
  all: zbool; unfold DATA_PIPE_0, ALL_DATA_PIPES in *.
  all: destruct (data_pipe <? DATA_PIPE_2); simpl in H;
       destruct (bus s) as [|rsp1 [|rsp2 rest]] eqn:B; try discriminate H; simpl in H;
       rewrite land_shiftr_1, u8_testbit in H by lia;
       (match type of H with context [if ?c then 1 else 0] => destruct c eqn:T end);
       simpl in H.
  all: try (destruct rest as [|rsp3 rest3]; [discriminate H|]).
  all: inversion H; subst; clear H; simpl.
  all: (split; [intros; try lia; reflexivity|]);
       (split; [intros; lia|]);
       intros _; do 3 eexists; (split; [reflexivity|]); cbv zeta.
  all: split; [intros Q; rewrite ?Z.bit0_odd in *; first [congruence | split; reflexivity]|].
  all: intros Q; rewrite ?Z.bit0_odd in *; try congruence.
  all: (eexists _, _, _; split; [reflexivity|]; split; [reflexivity|];
        split; [|reflexivity];
        intros k Hk; rewrite u8_testbit, Z.lor_spec, u8_testbit by lia;
        first
          [ rewrite Z.shiftl_spec, testbit_one by lia;
            destruct (k =? data_pipe) eqn:K; zbool;
            [subst; rewrite Z.sub_diag; apply orb_true_r
            |rewrite (proj2 (Z.eqb_neq (k - data_pipe) 0)) by lia; apply orb_false_r]
          | unfold SET_BIT; bits k; simpl; rewrite ?orb_false_r, ?orb_true_r; reflexivity ]).
Qed.

(** [nrf_driver_tx_destination] writes the address to RX_ADDR_P0 and, only
    if that write succeeds, to TX_ADDR, with the same cached number of
    bytes; it leaves the driver state unchanged. *)
Theorem tx_destination_same_address (buffer : list Z) (s s' : st) (r : fn_status_t) :
  nrf_driver_tx_destination buffer s = Some (r, s') ->
  let a := firstn (address_width_bytes (drv s)) buffer in
  drv s' = drv s /\
  exists rsp1 rest, bus s = rsp1 :: rest /\
    (r_ok rsp1 = true ->
       exists rsp2, rest = rsp2 :: bus s' /\ r = (if r_ok rsp2 then SPI_MNGR_OK else ERROR) /\
         trace s' = SpiDeinit :: Xfer (Z.lor (Z.land REGISTER_MASK TX_ADDR) W_REGISTER :: a) ::
                    Xfer (Z.lor (Z.land REGISTER_MASK RX_ADDR_P0) W_REGISTER :: a) ::
                    SpiInit :: trace s) /\
    (r_ok rsp1 = false ->
       r = ERROR /\ bus s' = rest /\
       trace s' = SpiDeinit :: Xfer (Z.lor (Z.land REGISTER_MASK RX_ADDR_P0) W_REGISTER :: a) ::
                  SpiInit :: trace s).
Proof.
  intros H a.
  unfold nrf_driver_tx_destination, w_each, w_register, spi_manager_transfer,
    get_drv, bind, ret, emit in H.
  simpl in H.
  destruct (bus s) as [|rsp1 rest] eqn:B; [discriminate H|].
  destruct rsp1 as [ok1 rx1]; destruct ok1; simpl in H.
  - destruct rest as [|rsp2 rest2]; [discriminate H|].
    destruct rsp2 as [ok2 rx2]; destruct ok2; simpl in H;
    inversion H; subst; clear H; simpl;
    (split; [reflexivity|]); eexists _, _; (split; [reflexivity|]); simpl;
    (split; [intros _; eexists; repeat split; reflexivity | discriminate]).
  - inversion H; subst; clear H. simpl.
    split; [reflexivity|]. eexists _, _. split; [reflexivity|]. simpl.
    split; [discriminate | intros _; repeat split; reflexivity].
Qed.

Lemma w_each_trace (regs buffer : list Z) (n : nat) (status : fn_status_t) (s s' : st)
    (r : fn_status_t) :
  regs <> [] ->
  w_each regs buffer n status s = Some (r, s') ->
  exists k, (1 <= k <= length regs)%nat /\ (k <= length (bus s))%nat /\
    bus s' = skipn k (bus s) /\
    Forall (fun x => r_ok x = true) (firstn (k - 1) (bus s)) /\
    r = (if r_ok (nth (k - 1) (bus s) (ok_resp [])) then SPI_MNGR_OK else ERROR) /\
    ((k < length regs)%nat -> r = ERROR) /\
    drv s' = drv s /\
    trace s' = rev (map (fun reg => Xfer (Z.lor (Z.land REGISTER_MASK reg) W_REGISTER
                                          :: firstn n buffer)) (firstn k regs)) ++ trace s.
Proof.
  revert status s.
  induction regs as [|reg rs IH]; intros status s Hne H; [congruence|].
  simpl in H. unfold bind at 1 in H.
  destruct (bus s) as [|rsp rest] eqn:B.
  { unfold w_register, bind, spi_manager_transfer in H. rewrite B in H. discriminate H. }
  rewrite (w_register_step _ _ _ _ rsp rest B) in H.
  destruct rsp as [ok rx]; destruct ok; simpl in H.
  - destruct rs as [|reg' rs'].
    + simpl in H. unfold ret in H. inversion H; subst; clear H.
      exists 1%nat. simpl.
      repeat split; try lia; try reflexivity. constructor.
    + apply IH in H; [|congruence]. cbn [bus drv trace] in H.
      destruct H as (k & Hk & Hl & Hb & Hf & Hr & Hlt & Hd & Ht).
      destruct k as [|k']; [lia|].
      exists (S (S k')).
      replace (S (S k') - 1)%nat with (S k') by lia.
      replace (S k' - 1)%nat with k' in Hf, Hr by lia.
      cbn [length] in *.
      split; [lia|]. split; [lia|]. split; [exact Hb|].
      split; [constructor; [reflexivity | exact Hf]|].
      split; [exact Hr|].
      split; [intros; apply Hlt; lia|].
      split; [exact Hd|].
      rewrite Ht. cbn [firstn map rev]. rewrite <- !app_assoc. reflexivity.
  - unfold ret in H. inversion H; subst; clear H.
    exists 1%nat. simpl.
    repeat split; try lia; try reflexivity; try constructor.
Qed.

(** [nrf_driver_payload_size] for all pipes writes the size to RX_PW_P0,
    RX_PW_P1, ... in order and stops after the first failed write; it
    returns the status of the last write, so ERROR whenever fewer than six
    writes were made. *)
Theorem payload_size_all_pipes (size : Z) (s s' : st) (r : fn_status_t) :
  0 < size <= MAX_BYTES ->
  nrf_driver_payload_size ALL_DATA_PIPES size s = Some (r, s') ->
  exists k, (1 <= k <= 6)%nat /\ (k <= length (bus s))%nat /\
    bus s' = skipn k (bus s) /\
    Forall (fun x => r_ok x = true) (firstn (k - 1) (bus s)) /\
    r = (if r_ok (nth (k - 1) (bus s) (ok_resp [])) then SPI_MNGR_OK else ERROR) /\
    ((k < 6)%nat -> r = ERROR) /\
    drv s' = drv s /\
    trace s' = SpiDeinit ::
               rev (map (fun reg => Xfer [Z.lor (Z.land REGISTER_MASK reg) W_REGISTER; u8 size])
                        (firstn k rx_pw_registers)) ++ SpiInit :: trace s.
Proof.
  intros Hs H.
  unfold nrf_driver_payload_size in H.
  remember (w_each rx_pw_registers) as w eqn:Ew.
  unfold bind, ret, emit in H. simpl in H.
  unfold ZERO_BYTES, MAX_BYTES in *.
  rewrite (proj2 (Z.ltb_lt 0 size)), (proj2 (Z.leb_le size 32)) in H by lia. simpl in H.
  destruct (w [u8 size] ONE_BYTE NRF_MNGR_OK
              {| drv := drv s; trace := SpiInit :: trace s; bus := bus s |}) as [[r1 s1]|] eqn:W;
    [|discriminate H].
  subst w.
  inversion H; subst; clear H.
  apply w_each_trace in W; [|unfold rx_pw_registers; discriminate].
  destruct W as (k & Hk & Hl & Hb & Hf & Hr & Hlt & Hd & Ht). cbn [bus drv trace length] in *.
  unfold rx_pw_registers in Hk, Hlt; cbn [length] in Hk, Hlt.
  exists k. rewrite Ht. repeat split; first [assumption | reflexivity | lia].
Qed.

(** [nrf_driver_read_packet] with dynamic payloads off makes one
    R_RX_PAYLOAD transfer of [size] bytes, copies the bytes read into the
    first [size] places of the buffer, leaves the rest of the buffer as it
    was and returns the status of that transfer. *)
Theorem read_packet_static (rx_packet : list Z) (size : nat) (s s' : st) (r : fn_status_t)
    (buf' : list Z) :
  dyn_payloads (user_config (drv s)) = 0 ->
  nrf_driver_read_packet rx_packet size s = Some ((r, buf'), s') ->
  exists rsp, bus s = rsp :: bus s' /\ drv s' = drv s /\
    r = (if r_ok rsp then SPI_MNGR_OK else ERROR) /\
    trace s' = SpiDeinit :: Xfer (R_RX_PAYLOAD :: repeat NOP size) :: SpiInit :: trace s /\
    firstn size buf' = map (fun i => u8 (nth (S i) (r_rx rsp) 0)) (seq 0 size) /\
    skipn size buf' = skipn size rx_packet.
Proof.
  intros Hd H.
  unfold nrf_driver_read_packet, spi_manager_transfer, get_drv, bind, ret, emit in H.
  simpl in H. rewrite Hd in H. simpl in H.
  destruct (bus s) as [|rsp rest] eqn:B; [discriminate H|].
  inversion H; subst; clear H. exists rsp. simpl.
  assert (L : length (map (fun i => u8 (nth (S i) (r_rx rsp) 0)) (seq 0 size)) = size)
    by (rewrite length_map, length_seq; reflexivity).
  repeat split; try reflexivity.
  - rewrite firstn_app, L, Nat.sub_diag, firstn_all2 by lia. simpl. apply app_nil_r.
  - rewrite skipn_app, L, Nat.sub_diag, skipn_all2 by lia. reflexivity.
Qed.

(** [nrf_driver_initialise] without a configuration, or with one that
    [validate_config] rejects, returns ERROR after the power-on delays and
    touches neither the bus nor the driver state. *)
Theorem initialise_rejects (cfg : option nrf_manager_t) (s : st) :
  match cfg with None => True | Some c => validate_config c = ERROR end ->
  nrf_driver_initialise cfg s =
    Some (ERROR, {| drv := drv s;
                    trace := SpiDeinit :: SleepMs 1 :: CE false :: SleepMs 100 :: SpiInit :: trace s;
                    bus := bus s |}).
Proof.
  intros Hc. destruct cfg as [c|]; unfold nrf_driver_initialise, bind, ret, emit; simpl.
  - rewrite Hc. reflexivity.
  - reflexivity.
Qed.

(** *** Computations that only append to the trace or leave the driver alone *)


Section Preserves.
Variable R : st -> st -> Prop.
Hypothesis R_refl : forall s, R s s.
Hypothesis R_trans : forall s1 s2 s3, R s1 s2 -> R s2 s3 -> R s1 s3.

Lemma preserves_ret {A} (a : A) : preserves R (ret a).
Proof. intros s a' s' H. unfold ret in H. inversion H; subst. apply R_refl. Qed.

Lemma preserves_get : preserves R get_drv.
Proof. intros s a s' H. unfold get_drv in H. inversion H; subst. apply R_refl. Qed.

Lemma preserves_stop {A} : preserves R (@stop A).
Proof. intros s a s' H. discriminate H. Qed.

Lemma preserves_bind {A B} (m : M A) (f : A -> M B) :
  preserves R m -> (forall a, preserves R (f a)) -> preserves R (bind m f).
Proof.
  intros Hm Hf s b s' H. unfold bind in H.
  destruct (m s) as [[a s1]|] eqn:E; [|discriminate H].
  exact (R_trans _ _ _ (Hm _ _ _ E) (Hf a _ _ _ H)).
Qed.
End Preserves.



Lemma trace_grows_refl s : trace_grows s s.
Proof. exists []. reflexivity. Qed.

Lemma trace_grows_trans s1 s2 s3 : trace_grows s1 s2 -> trace_grows s2 s3 -> trace_grows s1 s3.
Proof. intros [t1 E1] [t2 E2]. exists (t2 ++ t1). rewrite E2, E1, app_assoc. reflexivity. Qed.

Lemma same_drv_refl s : same_drv s s.
Proof. reflexivity. Qed.

Lemma same_drv_trans s1 s2 s3 : same_drv s1 s2 -> same_drv s2 s3 -> same_drv s1 s3.
Proof. unfold same_drv. congruence. Qed.

Lemma grows_emit e : preserves trace_grows (emit e).
Proof. intros s a s' H. inversion H; subst. exists [e]. reflexivity. Qed.

Lemma grows_modify f : preserves trace_grows (modify_drv f).
Proof. intros s a s' H. inversion H; subst. exists []. reflexivity. Qed.

Lemma grows_transfer tx : preserves trace_grows (spi_manager_transfer tx).
Proof.
  intros s a s' H. unfold spi_manager_transfer in H.
  destruct (bus s); [discriminate H|]. inversion H; subst. exists [Xfer tx]. reflexivity.
Qed.

Lemma same_emit e : preserves same_drv (emit e).
Proof. intros s a s' H. inversion H; subst. reflexivity. Qed.

Lemma same_transfer tx : preserves same_drv (spi_manager_transfer tx).
Proof.
  intros s a s' H. unfold spi_manager_transfer in H.
  destruct (bus s); [discriminate H|]. inversion H; subst. reflexivity.
Qed.

Create HintDb frame_db.
#[local] Hint Resolve trace_grows_refl trace_grows_trans same_drv_refl same_drv_trans
  preserves_ret preserves_get preserves_stop grows_emit grows_modify grows_transfer
  same_emit same_transfer : frame_db.

(** Splits a computation into its steps and closes each with [frame_db]. *)
Ltac frame_tac :=
  repeat first
    [ solve [eauto with frame_db]
    | eapply preserves_bind; [solve [eauto with frame_db] | | intros ?]
    | match goal with
      | |- preserves _ (if ?b then _ else _) => destruct b
      | |- preserves _ (match ?p with (_, _) => _ end) => destruct p
      end ].

Lemma grows_w_register reg buffer size : preserves trace_grows (w_register reg buffer size).
Proof. unfold w_register. frame_tac. Qed.

Lemma same_w_register reg buffer size : preserves same_drv (w_register reg buffer size).
Proof. unfold w_register. frame_tac. Qed.

Lemma grows_r_register_byte reg : preserves trace_grows (r_register_byte reg).
Proof. unfold r_register_byte. frame_tac. Qed.

Lemma same_r_register_byte reg : preserves same_drv (r_register_byte reg).
Proof. unfold r_register_byte. frame_tac. Qed.

Lemma grows_flush_tx : preserves trace_grows flush_tx_fifo.
Proof. unfold flush_tx_fifo. frame_tac. Qed.

Lemma same_flush_tx : preserves same_drv flush_tx_fifo.
Proof. unfold flush_tx_fifo. frame_tac. Qed.

Lemma grows_flush_rx : preserves trace_grows flush_rx_fifo.
Proof. unfold flush_rx_fifo. frame_tac. Qed.

Lemma same_flush_rx : preserves same_drv flush_rx_fifo.
Proof. unfold flush_rx_fifo. frame_tac. Qed.

#[local] Hint Resolve grows_w_register same_w_register grows_r_register_byte
  same_r_register_byte grows_flush_tx same_flush_tx grows_flush_rx same_flush_rx : frame_db.

Lemma grows_check_status_irq has : preserves trace_grows (check_status_irq has).
Proof. unfold check_status_irq. frame_tac. Qed.

Lemma same_check_status_irq has : preserves same_drv (check_status_irq has).
Proof. unfold check_status_irq. frame_tac. Qed.

#[local] Hint Resolve grows_check_status_irq same_check_status_irq : frame_db.

Lemma grows_send_poll fuel status irq : preserves trace_grows (send_poll fuel status irq).
Proof. revert irq. induction fuel as [|f IH]; intros irq; simpl; frame_tac. Qed.

Lemma same_send_poll fuel status irq : preserves same_drv (send_poll fuel status irq).
Proof. revert irq. induction fuel as [|f IH]; intros irq; simpl; frame_tac. Qed.

#[local] Hint Resolve grows_send_poll same_send_poll : frame_db.

Lemma grows_send_wait status : preserves trace_grows (send_wait status).
Proof.
  intros s a s' H. unfold send_wait in H.
  assert (K : preserves trace_grows (r <- check_status_irq false ;;
                                     send_poll (length (bus s)) status (fst r))) by frame_tac.
  exact (K s a s' H).
Qed.

Lemma same_send_wait status : preserves same_drv (send_wait status).
Proof.
  intros s a s' H. unfold send_wait in H.
  assert (K : preserves same_drv (r <- check_status_irq false ;;
                                  send_poll (length (bus s)) status (fst r))) by frame_tac.
  exact (K s a s' H).
Qed.

Lemma grows_init_writes l status : preserves trace_grows (init_writes l status).
Proof.
  revert status. induction l as [|[reg v] l IH]; intros status; simpl; frame_tac.
Qed.

Lemma same_init_writes l status : preserves same_drv (init_writes l status).
Proof.
  revert status. induction l as [|[reg v] l IH]; intros status; simpl; frame_tac.
Qed.

Lemma grows_standby : preserves trace_grows nrf_driver_standby_mode.
Proof. unfold nrf_driver_standby_mode, set_mode. frame_tac. Qed.

Lemma bus_consumed_refl s : bus_consumed s s.
Proof. exists []. reflexivity. Qed.

Lemma bus_consumed_trans s1 s2 s3 :
  bus_consumed s1 s2 -> bus_consumed s2 s3 -> bus_consumed s1 s3.
Proof. intros [u1 E1] [u2 E2]. exists (u1 ++ u2). rewrite E1, E2, app_assoc. reflexivity. Qed.

Lemma consumed_emit e : preserves bus_consumed (emit e).
Proof. intros s a s' H. inversion H; subst. exists []. reflexivity. Qed.

Lemma consumed_modify f : preserves bus_consumed (modify_drv f).
Proof. intros s a s' H. inversion H; subst. exists []. reflexivity. Qed.

Lemma consumed_transfer tx : preserves bus_consumed (spi_manager_transfer tx).
Proof.
  intros s a s' H. unfold spi_manager_transfer in H.
  destruct (bus s) as [|rsp rest] eqn:B; [discriminate H|].
  inversion H; subst. exists [rsp]. simpl. exact B.
Qed.

#[local] Hint Resolve bus_consumed_refl bus_consumed_trans consumed_emit consumed_modify
  consumed_transfer : frame_db.

Lemma consumed_w_register reg buffer size : preserves bus_consumed (w_register reg buffer size).
Proof. unfold w_register. frame_tac. Qed.

Lemma consumed_r_register_byte reg : preserves bus_consumed (r_register_byte reg).
Proof. unfold r_register_byte. frame_tac. Qed.

#[local] Hint Resolve consumed_w_register consumed_r_register_byte : frame_db.

Lemma consumed_standby : preserves bus_consumed nrf_driver_standby_mode.
Proof. unfold nrf_driver_standby_mode, set_mode. frame_tac. Qed.

(** One STATUS poll: the value read decides the report and the events. *)
Lemma check_status_irq_report (has_rx_p_no : bool) (s s' : st)
    (irq : fn_status_irq_t) (p : option Z) :
  check_status_irq has_rx_p_no s = Some ((irq, p), s') ->
  exists poll rest, bus s = poll :: rest /\
    irq = irq_classify (u8 (nth 1 (r_rx poll) 0)) /\
    trace s' = irq_events (u8 (nth 1 (r_rx poll) 0)) ++ trace s.
Proof.
  intros H.
  unfold check_status_irq, r_register_byte, w_register, spi_manager_transfer,
    flush_tx_fifo, bind, ret, emit in H.
  destruct (bus s) as [|rsp rest] eqn:B; [discriminate H|].
  exists rsp, rest. split; [reflexivity|].
  run_bus H; inversion H; subst; clear H;
    unfold irq_classify, irq_events, irq_bit; simpl; rewrite_bools; simpl; split; reflexivity.
Qed.

Lemma only_polls_refl s : only_polls s s.
Proof. exists []. reflexivity. Qed.

Lemma only_polls_trans s1 s2 s3 : only_polls s1 s2 -> only_polls s2 s3 -> only_polls s1 s3.
Proof.
  intros [v1 E1] [v2 E2]. exists (v2 ++ v1). rewrite E2, E1, flat_map_app, app_assoc. reflexivity.
Qed.

Lemma polls_check_status_irq has : preserves only_polls (check_status_irq has).
Proof.
  intros s [irq p] s' H. destruct (check_status_irq_report has s s' irq p H) as (poll & rest & _ & _ & E).
  exists [u8 (nth 1 (r_rx poll) 0)]. simpl. rewrite app_nil_r. exact E.
Qed.

#[local] Hint Resolve only_polls_refl only_polls_trans polls_check_status_irq : frame_db.

Lemma polls_send_poll fuel status irq : preserves only_polls (send_poll fuel status irq).
Proof. revert irq. induction fuel as [|f IH]; intros irq; simpl; frame_tac. Qed.

(** After a failed payload transfer the loop does not poll again. *)
Lemma send_poll_skip (fuel : nat) (status : fn_status_t) (irq : fn_status_irq_t) :
  fn_status_eqb status SPI_MNGR_OK = false -> send_poll fuel status irq = ret irq.
Proof. intros E. destruct fuel; simpl; rewrite E; reflexivity. Qed.

(** The loop either returns the report it was given, unchanged, or the
    report of a STATUS poll ending in its final state. *)
Lemma send_poll_last (fuel : nat) (status : fn_status_t) (irq0 : fn_status_irq_t)
    (s s' : st) (irq : fn_status_irq_t) :
  send_poll fuel status irq0 s = Some (irq, s') ->
  (irq = irq0 /\ s' = s) \/ exists s2 p, check_status_irq false s2 = Some ((irq, p), s').
Proof.
  revert irq0 s. induction fuel as [|f IH]; intros irq0 s H; simpl in H;
    destruct (fn_status_eqb status SPI_MNGR_OK && irq_eqb irq0 NONE_ASSERTED).
  - discriminate H.
  - unfold ret in H. inversion H; subst. left. split; reflexivity.
  - apply bind_some in H. destruct H as ([i p] & s1 & Hc & Hk). simpl in Hk.
    destruct (IH i s1 Hk) as [[-> ->] | Hr].
    + right. exists s, p. exact Hc.
    + right. exact Hr.
  - unfold ret in H. inversion H; subst. left. split; reflexivity.
Qed.

(** The report of [send_wait] is that of its last STATUS poll, which is its
    first one when the payload transfer failed. *)
Lemma send_wait_last (status : fn_status_t) (s s' : st) (irq : fn_status_irq_t) :
  send_wait status s = Some (irq, s') ->
  exists s2 p, check_status_irq false s2 = Some ((irq, p), s') /\
    (fn_status_eqb status SPI_MNGR_OK = false -> s2 = s).
Proof.
  unfold send_wait. intros H. apply bind_some in H.
  destruct H as ([i p] & s1 & Hc & Hk). simpl in Hk.
  destruct (fn_status_eqb status SPI_MNGR_OK) eqn:E.
  - destruct (send_poll_last _ _ _ _ _ _ Hk) as [[-> ->] | (s2 & p2 & H2)].
    + exists s, p. split; [exact Hc | discriminate].
    + exists s2, p2. split; [exact H2 | discriminate].
  - rewrite send_poll_skip in Hk by exact E. unfold ret in Hk. inversion Hk; subst.
    exists s, p. split; [exact Hc | reflexivity].
Qed.

Lemma validate_ok_address_width (c : nrf_manager_t) :
  validate_config c = NRF_MNGR_OK -> AW_3_BYTES <= address_width c <= AW_5_BYTES.
Proof.
  intros H. rewrite validate_components in H.
  destruct (count4 (power c) 0 2 4 6 ltac:(lia) ltac:(lia) ltac:(lia)
              ltac:(lia) ltac:(lia) ltac:(lia)) as [P1 _].
  destruct (count4 (retr_delay c) 0 16 32 48 ltac:(lia) ltac:(lia) ltac:(lia)
              ltac:(lia) ltac:(lia) ltac:(lia)) as [D1 _].
  cbv zeta in P1, D1.
  destruct ((AW_3_BYTES <=? address_width c) && (address_width c <=? AW_5_BYTES)) eqn:A.
  - apply andb_true_iff in A. rewrite !Z.leb_le in A. exact A.
  - exfalso. simpl b2z in H.
    destruct (b2z_cases ((2 <=? channel c) && (channel c <=? 125))) as [C0 _].
    destruct (b2z_cases ((data_rate c =? RF_DR_1MBPS) || (data_rate c =? RF_DR_2MBPS)
                         || (data_rate c =? RF_DR_250KBPS))) as [R0 _].
    destruct (b2z_cases ((dyn_payloads c =? DYNPD_ENABLE)
                         || (dyn_payloads c =? DYNPD_DISABLE))) as [Y0 _].
    destruct (b2z_cases (retr_count c <=? ARC_15RT)) as [N0 _].
    match type of H with (if ?x =? 7 then _ else _) = _ =>
      destruct (Z.eqb_spec x 7) as [E|E]; [|discriminate H] end.
    lia.
Qed.

(** [nrf_driver_initialise] with a valid configuration stores it in the
    driver state, caches the address width as [address_width + 2] bytes,
    keeps the mode and the RX_ADDR_P0 cache, and ends with the TX FIFO
    flush followed by the RX FIFO flush. *)
Theorem initialise_stores_config (c : nrf_manager_t) (s s' : st) (r : fn_status_t) :
  validate_config c = NRF_MNGR_OK ->
  nrf_driver_initialise (Some c) s = Some (r, s') ->
  user_config (drv s') = c /\
  address_width_bytes (drv s') = Z.to_nat (address_width c + 2) /\
  mode (drv s') = mode (drv s) /\
  is_rx_addr_p0 (drv s') = is_rx_addr_p0 (drv s) /\
  rx_addr_p0 (drv s') = rx_addr_p0 (drv s) /\
  exists writes,
    trace s' = SpiDeinit :: SleepUs 2 :: WriteOnly [FLUSH_RX] :: SleepUs 2 ::
               SleepUs 2 :: WriteOnly [FLUSH_TX] :: SleepUs 2 ::
               writes ++ SleepMs 1 :: CE false :: SleepMs 100 :: SpiInit :: trace s.
Proof.
  intros Hv H.
  pose proof (validate_ok_address_width c Hv) as Aw.
  unfold nrf_driver_initialise in H.
  remember init_writes as iw eqn:Eiw.
  unfold bind, ret, emit, modify_drv, get_drv, flush_tx_fifo, flush_rx_fifo in H.
  simpl in H. rewrite Hv in H. simpl in H.
  unfold AW_3_BYTES, AW_5_BYTES, FIVE_BYTES in *.
  rewrite (proj2 (Z.leb_le (address_width c + 2) 5)) in H by lia.
  match type of H with context [iw ?l ?st0 ?s0] =>
    destruct (iw l st0 s0) as [[r1 s1]|] eqn:W; [|discriminate H] end.
  inversion H; subst; clear H. simpl.
  destruct (grows_init_writes _ _ _ _ _ W) as [writes Ew].
  pose proof (same_init_writes _ _ _ _ _ W) as Dw. unfold same_drv in Dw.
  rewrite Dw. simpl. repeat split.
  exists writes. rewrite Ew. reflexivity.
Qed.

(** [nrf_driver_send_packet] always leaves the driver in STANDBY_I. After
    SPI is initialised, CE goes high, the W_TX_PAYLOAD transfer carries the
    first [size] bytes of the packet, and after 15 us CE goes low; what
    follows, up to the SPI de-initialisation, is one or more whole STATUS
    polls and nothing else. Events before the SPI initialisation occur only
    when the driver was in receive mode. *)
Theorem send_packet_frames_payload (tx_packet : list Z) (size : nat) (s s' : st) (r : fn_status_t) :
  nrf_driver_send_packet tx_packet size s = Some (r, s') ->
  mode (drv s') = STANDBY_I /\
  exists vs pre, vs <> [] /\
    trace s' = SpiDeinit :: flat_map irq_events vs ++ CE false :: SleepUs 15 ::
               Xfer (W_TX_PAYLOAD :: firstn size tx_packet) :: CE true :: SpiInit ::
               pre ++ trace s /\
    (mode (drv s) <> RX_MODE -> pre = []).
Proof.
  intros H. unfold nrf_driver_send_packet in H. peel H.
  unfold get_drv in Hm. injection Hm as <- <-.
  assert (Pre : exists pre, trace s1 = pre ++ trace s /\ (mode (drv s) <> RX_MODE -> pre = [])).
  { destruct (mode (drv s)) eqn:Md; simpl in Hm0;
      try (unfold ret in Hm0; inversion Hm0; subst; exists []; split; [reflexivity | auto]).
    assert (G : preserves trace_grows (_ <- nrf_driver_standby_mode ;; set_mode STANDBY_I)).
    { eapply preserves_bind; [exact trace_grows_trans | exact grows_standby |].
      intros _. unfold set_mode. exact (grows_modify _). }
    destruct (G _ _ _ Hm0) as [pre Ep]. exists pre. split; [exact Ep | congruence]. }
  destruct Pre as [pre [Ep Hp]].
  unfold emit, set_mode, modify_drv, spi_manager_transfer, ret in *.
  inversion Hm1; subst; clear Hm1. inversion Hm2; subst; clear Hm2.
  destruct (bus s1) as [|rsp rest] eqn:B; [discriminate Hm3|].
  simpl in Hm3. inversion Hm3; subst; clear Hm3.
  inversion Hm4; subst; clear Hm4. inversion Hm5; subst; clear Hm5.
  inversion Hm6; subst; clear Hm6. inversion Hm7; subst; clear Hm7.
  inversion Hm9; subst; clear Hm9. inversion H; subst; clear H. simpl.
  pose proof (same_send_wait _ _ _ _ Hm8) as D. unfold same_drv in D.
  unfold send_wait in Hm8. apply bind_some in Hm8.
  destruct Hm8 as ([i p] & s2 & Hc & Hk). simpl in Hk.
  destruct (check_status_irq_report _ _ _ _ _ Hc) as (poll & rest2 & _ & _ & Ec).
  destruct (polls_send_poll _ _ _ _ _ _ Hk) as [vs Ev].
  rewrite D. split; [reflexivity|].
  exists (vs ++ [u8 (nth 1 (r_rx poll) 0)]), pre. split; [destruct vs; discriminate|].
  rewrite Ev, Ec, flat_map_app. simpl. rewrite Ep, !app_nil_r, <- !app_assoc.
  split; [reflexivity | exact Hp].
Qed.

Lemma mem_z_in (x : Z) (l : list Z) : mem_z x l = true <-> In x l.
Proof.
  unfold mem_z. rewrite existsb_exists. split.
  - intros [y [Hy E]]. apply Z.eqb_eq in E. subst. exact Hy.
  - intros Hx. exists x. split; [exact Hx | apply Z.eqb_refl].
Qed.

Lemma mem_z_app (x : Z) (l1 l2 : list Z) : mem_z x (l1 ++ l2) = mem_z x l1 || mem_z x l2.
Proof. unfold mem_z. apply existsb_app. Qed.

Lemma mem_z_same (x : Z) (l1 l2 : list Z) :
  (forall y, In y l1 <-> In y l2) -> mem_z x l1 = mem_z x l2.
Proof.
  intros E. destruct (mem_z x l2) eqn:M2.
  - apply mem_z_in. apply E. apply mem_z_in. exact M2.
  - destruct (mem_z x l1) eqn:M1; [|reflexivity].
    apply mem_z_in, E, mem_z_in in M1. congruence.
Qed.

Lemma filter_eqb_nil (x : Z) (l : list Z) : ~ In x l -> filter (fun p => x =? p) l = [].
Proof.
  induction l as [|y l IH]; intros Hn; simpl; [reflexivity|].
  destruct (x =? y) eqn:E.
  - apply Z.eqb_eq in E. subst. exfalso. apply Hn. left. reflexivity.
  - apply IH. intros Hx. apply Hn. right. exact Hx.
Qed.

Lemma count_eqb (x : Z) (l : list Z) :
  NoDup l -> Z.of_nat (length (filter (fun p => x =? p) l)) = if mem_z x l then 1 else 0.
Proof.
  unfold mem_z. induction l as [|y l IH]; intros Nd; [reflexivity|].
  inversion Nd as [|? ? Ny Nl]; subst. simpl.
  destruct (x =? y) eqn:E; simpl.
  - apply Z.eqb_eq in E. subst.
    rewrite filter_eqb_nil by exact Ny. reflexivity.
  - rewrite IH by exact Nl. reflexivity.
Qed.

Lemma find_eqb (x : Z) (l : list Z) :
  find (fun v => x =? v) l = if mem_z x l then Some x else None.
Proof.
  unfold mem_z. induction l as [|y l IH]; [reflexivity|]. simpl.
  destruct (x =? y) eqn:E; simpl.
  - apply Z.eqb_eq in E. subst. reflexivity.
  - exact IH.
Qed.

Lemma cipo_range : for_range CIPO_MIN CIPO_MAX 4 = [0; 4; 8; 12; 16; 20; 24; 28].
Proof. reflexivity. Qed.

Lemma copi_range : for_range COPI_MIN COPI_MAX 4 = [3; 7; 11; 15; 19; 23; 27].
Proof. reflexivity. Qed.

Lemma sck_range : for_range SCK_MIN SCK_MAX 4 = [2; 6; 10; 14; 18; 22; 26].
Proof. reflexivity. Qed.

Ltac nodup_tac := repeat (apply NoDup_cons; [simpl; lia|]); apply NoDup_nil.

Lemma cipo_range_pins (x : Z) : mem_z x [0; 4; 8; 12; 16; 20; 24; 28] = mem_z x (spi0_cipo ++ spi1_cipo).
Proof. apply mem_z_same. intros y. simpl. tauto. Qed.

Lemma copi_range_pins (x : Z) : mem_z x [3; 7; 11; 15; 19; 23; 27] = mem_z x (spi0_copi ++ spi1_copi).
Proof. apply mem_z_same. intros y. simpl. tauto. Qed.

Lemma sck_range_pins (x : Z) : mem_z x [2; 6; 10; 14; 18; 22; 26] = mem_z x (spi0_sck ++ spi1_sck).
Proof. apply mem_z_same. intros y. simpl. tauto. Qed.

(** The pins of a kind accepted by [pin_manager_validate] are the SPI pins of that kind. *)
Lemma validate_pins (copi cipo sck : Z) :
  pin_manager_validate copi cipo sck =
  if mem_z cipo (spi0_cipo ++ spi1_cipo) && mem_z copi (spi0_copi ++ spi1_copi)
     && mem_z sck (spi0_sck ++ spi1_sck)
  then PIN_MNGR_OK else ERROR.
Proof.
  unfold pin_manager_validate. cbn [fold_left].
  rewrite cipo_range, copi_range, sck_range.
  rewrite !count_eqb by nodup_tac.
  rewrite cipo_range_pins, copi_range_pins, sck_range_pins.
  destruct (mem_z cipo (spi0_cipo ++ spi1_cipo)), (mem_z copi (spi0_copi ++ spi1_copi)),
    (mem_z sck (spi0_sck ++ spi1_sck)); reflexivity.
Qed.

(** [pin_manager_configure] accepts exactly the pins that some SPI
    instance offers for CIPO, COPI and SCK, each checked on its own; on
    acceptance it sets up the three SPI pins and CE and CSN as outputs, and
    otherwise it touches no GPIO. *)
Theorem pin_manager_configure_spi_pins (copi cipo sck csn ce : Z) :
  pin_manager_configure copi cipo sck csn ce =
  if mem_z cipo (spi0_cipo ++ spi1_cipo) && mem_z copi (spi0_copi ++ spi1_copi)
     && mem_z sck (spi0_sck ++ spi1_sck)
  then (PIN_MNGR_OK, [GpioSetFunctionSpi sck; GpioSetFunctionSpi copi; GpioSetFunctionSpi cipo;
                      GpioInit ce; GpioInit csn; GpioSetDirOut ce; GpioSetDirOut csn])
  else (ERROR, []).
Proof.
  unfold pin_manager_configure. rewrite validate_pins.
  destruct (_ && _ && _); reflexivity.
Qed.

Ltac in_cases H := repeat (destruct H as [<-|H]; [reflexivity|]); destruct H.

Lemma check_cipo_pin_sets (x : Z) :
  check_cipo_pin x = if mem_z x spi0_cipo then SPI_0
                     else if mem_z x spi1_cipo then SPI_1 else INSTANCE_ERROR.
Proof.
  unfold check_cipo_pin, check_pin. rewrite find_eqb, cipo_range.
  destruct (mem_z x [0; 4; 8; 12; 16; 20; 24; 28]) eqn:M.
  - apply mem_z_in in M. simpl in M. in_cases M.
  - rewrite cipo_range_pins, mem_z_app in M. apply orb_false_iff in M.
    destruct M as [-> ->]. reflexivity.
Qed.

Lemma check_copi_pin_sets (x : Z) :
  check_copi_pin x = if mem_z x spi0_copi then SPI_0
                     else if mem_z x spi1_copi then SPI_1 else INSTANCE_ERROR.
Proof.
  unfold check_copi_pin, check_pin. rewrite find_eqb, copi_range.
  destruct (mem_z x [3; 7; 11; 15; 19; 23; 27]) eqn:M.
  - apply mem_z_in in M. simpl in M. in_cases M.
  - rewrite copi_range_pins, mem_z_app in M. apply orb_false_iff in M.
    destruct M as [-> ->]. reflexivity.
Qed.

Lemma check_sck_pin_sets (x : Z) :
  check_sck_pin x = if mem_z x spi0_sck then SPI_0
                    else if mem_z x spi1_sck then SPI_1 else INSTANCE_ERROR.
Proof.
  unfold check_sck_pin, check_pin. rewrite find_eqb, sck_range.
  destruct (mem_z x [2; 6; 10; 14; 18; 22; 26]) eqn:M.
  - apply mem_z_in in M. simpl in M. in_cases M.
  - rewrite sck_range_pins, mem_z_app in M. apply orb_false_iff in M.
    destruct M as [-> ->]. reflexivity.
Qed.

(** [spi_manager_check_pins] returns INSTANCE_ERROR when a pin is not an
    SPI pin, SPI_0 when all three are SPI0 pins, and SPI_1 otherwise, also
    when the pins mix the two instances. *)
Theorem check_pins_instance (cipo_pin copi_pin sck_pin : Z) :
  spi_manager_check_pins cipo_pin copi_pin sck_pin =
  if mem_z cipo_pin (spi0_cipo ++ spi1_cipo) && mem_z copi_pin (spi0_copi ++ spi1_copi)
     && mem_z sck_pin (spi0_sck ++ spi1_sck)
  then (if mem_z cipo_pin spi0_cipo && mem_z copi_pin spi0_copi && mem_z sck_pin spi0_sck
        then SPI_0 else SPI_1)
  else INSTANCE_ERROR.
Proof.
  unfold spi_manager_check_pins.
  rewrite check_cipo_pin_sets, check_copi_pin_sets, check_sck_pin_sets, !mem_z_app.
  destruct (mem_z cipo_pin spi0_cipo), (mem_z cipo_pin spi1_cipo),
    (mem_z copi_pin spi0_copi), (mem_z copi_pin spi1_copi),
    (mem_z sck_pin spi0_sck), (mem_z sck_pin spi1_sck); reflexivity.
Qed.

Lemma cipo_instance (x : Z) :
  mem_z x (spi0_cipo ++ spi1_cipo) = true ->
  nth (Z.to_nat ((x - CIPO_MIN) / 4)) [SPI_0; SPI_0; SPI_1; SPI_1; SPI_0; SPI_0; SPI_1; SPI_1] 0 =
  (if mem_z x spi0_cipo then SPI_0 else SPI_1) /\
  mem_z x spi1_cipo = negb (mem_z x spi0_cipo).
Proof. intros M. apply mem_z_in in M. simpl in M. repeat (destruct M as [<-|M]; [split; reflexivity|]); destruct M. Qed.

Lemma copi_instance (x : Z) :
  mem_z x (spi0_copi ++ spi1_copi) = true ->
  nth (Z.to_nat ((x - COPI_MIN) / 4)) [SPI_0; SPI_0; SPI_1; SPI_1; SPI_0; SPI_0; SPI_1; SPI_1] 0 =
  (if mem_z x spi0_copi then SPI_0 else SPI_1) /\
  mem_z x spi1_copi = negb (mem_z x spi0_copi).
Proof. intros M. apply mem_z_in in M. simpl in M. repeat (destruct M as [<-|M]; [split; reflexivity|]); destruct M. Qed.

Lemma sck_instance (x : Z) :
  mem_z x (spi0_sck ++ spi1_sck) = true ->
  nth (Z.to_nat ((x - SCK_MIN) / 4)) [SPI_0; SPI_0; SPI_1; SPI_1; SPI_0; SPI_0; SPI_1; SPI_1] 0 =
  (if mem_z x spi0_sck then SPI_0 else SPI_1) /\
  mem_z x spi1_sck = negb (mem_z x spi0_sck).
Proof. intros M. apply mem_z_in in M. simpl in M. repeat (destruct M as [<-|M]; [split; reflexivity|]); destruct M. Qed.

Lemma baudrate_cap (b : Z) : (if 7500000 <? b then 7500000 else b) = Z.min b 7500000.
Proof. destruct (Z.ltb_spec 7500000 b); lia. Qed.

(** [nrf_driver_configure] succeeds only when the three pins belong to one
    SPI instance, and then stores the pins, that instance and the baud rate
    capped at 7.5 MHz. Pins that are all valid but mixed are stored with the
    SPI settings unchanged and the call returns ERROR. *)
Theorem configure_selects_instance (io : nrf_io_t) (pins : pin_manager_t) (baudrate_hz : Z) :
  let on0 := mem_z (cipo pins) spi0_cipo && mem_z (copi pins) spi0_copi && mem_z (sck pins) spi0_sck in
  let on1 := mem_z (cipo pins) spi1_cipo && mem_z (copi pins) spi1_copi && mem_z (sck pins) spi1_sck in
  let valid := mem_z (cipo pins) (spi0_cipo ++ spi1_cipo) && mem_z (copi pins) (spi0_copi ++ spi1_copi)
               && mem_z (sck pins) (spi0_sck ++ spi1_sck) in
  fst (fst (nrf_driver_configure io pins baudrate_hz)) = (if on0 || on1 then PIN_MNGR_OK else ERROR) /\
  snd (nrf_driver_configure io pins baudrate_hz) =
    (if on0 || on1
     then {| user_pins := pins;
             user_spi := {| instance := if on0 then spi0 else spi1;
                            baudrate := Z.min baudrate_hz 7500000 |} |}
     else if valid then {| user_pins := pins; user_spi := user_spi io |} else io).
Proof.
  intros on0 on1 valid. subst on0 on1 valid.
  unfold nrf_driver_configure, pin_manager_configure. rewrite validate_pins.
  destruct (mem_z (cipo pins) (spi0_cipo ++ spi1_cipo)) eqn:V1;
  destruct (mem_z (copi pins) (spi0_copi ++ spi1_copi)) eqn:V2;
  destruct (mem_z (sck pins) (spi0_sck ++ spi1_sck)) eqn:V3.
  1: { destruct (cipo_instance _ V1) as [I1 J1]. destruct (copi_instance _ V2) as [I2 J2].
    destruct (sck_instance _ V3) as [I3 J3].
    rewrite I1, I2, I3, J1, J2, J3, baudrate_cap.
    destruct (mem_z (cipo pins) spi0_cipo), (mem_z (copi pins) spi0_copi),
      (mem_z (sck pins) spi0_sck); split; reflexivity. }
  all: rewrite mem_z_app in V1, V2, V3;
       repeat match goal with
              | V : _ || _ = false |- _ =>
                  apply orb_false_iff in V; destruct V as [Va Vb]; rewrite Va, Vb
              end;
       cbn [andb]; unfold fn_status_eqb; simpl Z.eqb; cbv iota; rewrite ?andb_false_r, ?andb_true_r; cbn [orb andb]; split; reflexivity.
Qed.


(** The configuration calls other than [nrf_driver_rx_destination] on pipe
    0 leave the pipe-0 cache (flag, bytes and cached address width) as they
    found it, whatever the bus returns. *)
Theorem p0_cache_untouched :
  (forall data_pipe buffer, data_pipe <> DATA_PIPE_0 ->
     keeps (nrf_driver_rx_destination data_pipe buffer)) /\
  keeps nrf_driver_receiver_mode /\
  keeps nrf_driver_dyn_payloads_enable /\
  keeps nrf_driver_dyn_payloads_disable /\
  (forall mem delay count, keeps (nrf_driver_auto_retransmission mem delay count)) /\
  (forall data_rate, keeps (nrf_driver_rf_data_rate data_rate)) /\
  (forall rf_pwr, keeps (nrf_driver_rf_power rf_pwr)).
Proof.
  repeat split.
  - intros data_pipe buffer Hd. unfold nrf_driver_rx_destination.
    apply Z.eqb_neq in Hd. rewrite Hd. keeps_tac.
  - unfold nrf_driver_receiver_mode. keeps_tac.
  - unfold nrf_driver_dyn_payloads_enable. keeps_tac.
  - unfold nrf_driver_dyn_payloads_disable. keeps_tac.
  - intros. unfold nrf_driver_auto_retransmission. keeps_tac.
  - intros. unfold nrf_driver_rf_data_rate. keeps_tac.
  - intros. unfold nrf_driver_rf_power. keeps_tac.
Qed.

(** *** The send operation's outcome *)



(** C3 *)
(** Claim C3 (code defect): outside receive mode, after a successful payload
    transfer, when every poll before the first one reporting an interrupt
    shows none of the three bits and that poll shows data-received alone,
    the polling loop ends at that poll, leaves every later chip answer (a
    later data-sent report included) unread, and the send returns ERROR:
    the loop does not keep polling until data-sent or max-retries. *)
Theorem send_packet_stops_on_rx_dr (tx_packet : list Z) (size : nat) (rsp : resp)
    (pre : list Z) (v : Z) (rest : list resp) (s : st) :
  mode (drv s) <> RX_MODE ->
  r_ok rsp = true ->
  Forall (fun w => irq_classify (u8 w) = NONE_ASSERTED) pre ->
  irq_classify (u8 v) = RX_DR_ASSERTED ->
  bus s = rsp :: flat_map poll_resps (pre ++ [v]) ++ rest ->
  exists s', nrf_driver_send_packet tx_packet size s = Some (ERROR, s') /\ bus s' = rest.
Proof.
  intros Hm Hok Hpre Hv B.
  assert (Rx : is_rx_mode (mode (drv s)) = false)
    by (destruct (mode (drv s)); [reflexivity | reflexivity | reflexivity | congruence]).
  assert (Hn : irq_classify (u8 v) <> NONE_ASSERTED) by (rewrite Hv; discriminate).
  unfold nrf_driver_send_packet, bind at 1, get_drv at 1.
  rewrite Rx. unfold bind at 1, ret at 1.
  unfold bind at 1, emit at 1. unfold bind at 1, emit at 1.
  unfold bind at 1, spi_manager_transfer at 1. cbn [bus]. rewrite B, Hok. cbn [fst].
  match goal with
  | |- exists s', (_ <- set_mode _ ;; _ <- emit _ ;; _ <- emit _ ;; _ <- set_mode _ ;; _) ?x = _ /\ _ =>
      set (x0 := x)
  end.
  unfold bind at 1, set_mode at 1, modify_drv at 1.
  unfold bind at 1, emit at 1. unfold bind at 1, emit at 1.
  unfold bind at 1, set_mode at 1, modify_drv at 1.
  match goal with
  | |- exists s', (bind (send_wait SPI_MNGR_OK) ?k) ?x = _ /\ _ =>
      destruct (send_wait_first_report pre v rest x Hpre Hn eq_refl) as [s2 [E2 B2]];
      exists {| drv := drv s2; trace := SpiDeinit :: trace s2; bus := bus s2 |};
      unfold bind at 1; rewrite E2
  end.
  rewrite Hv. split; [reflexivity | exact B2].
Qed.

(** *** Concrete runs of the further properties *)

Lemma dyn_payloads_enable_acts_witness :
  let s := st0 [ok_resp [0; 0x01]; ok_resp [0; 0]; ok_resp [0; 0]] in
  dyn_payloads (user_config (drv s)) = DYNPD_DISABLE /\
  exists r s', nrf_driver_dyn_payloads_enable s = Some (r, s') /\
  exists rsp1 rsp2 rest feature,
    bus s = rsp1 :: rsp2 :: rest /\
    (forall k, 0 <= k < 8 ->
       Z.testbit feature k = if k =? FEATURE_EN_DPL then true
                             else Z.testbit (nth 1 (r_rx rsp1) 0) k) /\
    dyn_payloads (user_config (drv s')) = (if r_ok rsp2 then DYNPD_ENABLE else DYNPD_DISABLE) /\
    (r_ok rsp2 = true ->
       exists rsp3, rest = rsp3 :: bus s' /\ r = (if r_ok rsp3 then SPI_MNGR_OK else ERROR) /\
         trace s' = SpiDeinit :: Xfer [Z.lor (Z.land REGISTER_MASK DYNPD) W_REGISTER; DYNPD_ENABLE] ::
                    Xfer [Z.lor (Z.land REGISTER_MASK FEATURE) W_REGISTER; feature] ::
                    Xfer [FEATURE; NOP] :: SpiInit :: trace s) /\
    (r_ok rsp2 = false ->
       r = ERROR /\ bus s' = rest /\
       trace s' = SpiDeinit :: Xfer [Z.lor (Z.land REGISTER_MASK FEATURE) W_REGISTER; feature] ::
                  Xfer [FEATURE; NOP] :: SpiInit :: trace s).
Proof.
  intros s.
  assert (P1 : dyn_payloads (user_config (drv s)) = DYNPD_DISABLE) by (reflexivity).
  split; [exact P1 |].
  step_eq.
  exact (dyn_payloads_enable_acts s _ _ P1 E).
Defined.

Lemma dyn_payloads_disable_acts_witness :
  let s := {| drv := with_config nrf_driver_init (set_dyn_payloads default_config DYNPD_ENABLE); trace := []; bus := [ok_resp [0; 0x05]; ok_resp [0; 0]; ok_resp [0; 0]] |} in
  dyn_payloads (user_config (drv s)) = DYNPD_ENABLE /\
  exists r s', nrf_driver_dyn_payloads_disable s = Some (r, s') /\
  exists rsp1 rsp2 rest feature,
    bus s = rsp1 :: rsp2 :: rest /\
    (forall k, 0 <= k < 8 ->
       Z.testbit feature k = if k =? FEATURE_EN_DPL then false
                             else Z.testbit (nth 1 (r_rx rsp1) 0) k) /\
    dyn_payloads (user_config (drv s')) = (if r_ok rsp2 then DYNPD_DISABLE else DYNPD_ENABLE) /\
    (r_ok rsp2 = true ->
       exists rsp3, rest = rsp3 :: bus s' /\ r = (if r_ok rsp3 then SPI_MNGR_OK else ERROR) /\
         trace s' = SpiDeinit :: Xfer [Z.lor (Z.land REGISTER_MASK DYNPD) W_REGISTER; DYNPD_DISABLE] ::
                    Xfer [Z.lor (Z.land REGISTER_MASK FEATURE) W_REGISTER; feature] ::
                    Xfer [FEATURE; NOP] :: SpiInit :: trace s) /\
    (r_ok rsp2 = false ->
       r = ERROR /\ bus s' = rest /\
       trace s' = SpiDeinit :: Xfer [Z.lor (Z.land REGISTER_MASK FEATURE) W_REGISTER; feature] ::
                  Xfer [FEATURE; NOP] :: SpiInit :: trace s).
Proof.
  intros s.
  assert (P1 : dyn_payloads (user_config (drv s)) = DYNPD_ENABLE) by (reflexivity).
  split; [exact P1 |].
  step_eq.
  exact (dyn_payloads_disable_acts s _ _ P1 E).
Defined.

Lemma auto_retransmission_params_witness :
  let s := st0 [ok_resp [0; 0]] in
  let mem := fun a : Z => a in
  let delay := ARD_500US in
  let count := ARC_10RT in
  exists r s', nrf_driver_auto_retransmission mem delay count s = Some (r, s') /\
  (count <= ARC_15RT /\ (delay = ARD_250US \/ delay = ARD_500US \/ delay = ARD_750US) ->
     exists rsp, bus s = rsp :: bus s' /\ drv s' = drv s /\
       r = (if r_ok rsp then SPI_MNGR_OK else ERROR) /\
       trace s' = SpiDeinit :: Xfer [Z.lor (Z.land REGISTER_MASK SETUP_RETR) W_REGISTER;
                                     u8 (mem (Z.lor delay count))] :: SpiInit :: trace s) /\
  (~ (count <= ARC_15RT /\ (delay = ARD_250US \/ delay = ARD_500US \/ delay = ARD_750US)) ->
     r = ERROR /\
     s' = {| drv := drv s; trace := SpiDeinit :: SpiInit :: trace s; bus := bus s |}).
Proof.
  intros s mem delay count.
  step_eq.
  exact (auto_retransmission_params mem delay count s _ _ E).
Defined.

Lemma rf_data_rate_keeps_power_witness :
  let s := st0 [ok_resp [0; 0x06]; ok_resp [0; 0]] in
  let data_rate := RF_DR_2MBPS in
  exists r s', nrf_driver_rf_data_rate data_rate s = Some (r, s') /\
  ((data_rate = RF_DR_1MBPS \/ data_rate = RF_DR_2MBPS \/ data_rate = RF_DR_250KBPS) ->
     exists rsp1 rsp2 rf_setup,
       bus s = rsp1 :: rsp2 :: bus s' /\ drv s' = drv s /\
       r = (if r_ok rsp2 then SPI_MNGR_OK else ERROR) /\
       trace s' = SpiDeinit :: Xfer [Z.lor (Z.land REGISTER_MASK RF_SETUP) W_REGISTER; rf_setup] ::
                  Xfer [RF_SETUP; NOP] :: SpiInit :: trace s /\
       (forall k, 0 <= k < 8 ->
          Z.testbit rf_setup k = if (k =? 1) || (k =? 2) then Z.testbit (nth 1 (r_rx rsp1) 0) k
                                 else Z.testbit data_rate k)) /\
  (~ (data_rate = RF_DR_1MBPS \/ data_rate = RF_DR_2MBPS \/ data_rate = RF_DR_250KBPS) ->
     r = ERROR /\ s' = {| drv := drv s; trace := SpiInit :: trace s; bus := bus s |}).
Proof.
  intros s data_rate.
  step_eq.
  exact (rf_data_rate_keeps_power data_rate s _ _ E).
Defined.

Lemma rf_power_keeps_data_rate_witness :
  let s := st0 [ok_resp [0; 0x28]; ok_resp [0; 0]] in
  let rf_pwr := RF_PWR_NEG_12DBM in
  exists r s', nrf_driver_rf_power rf_pwr s = Some (r, s') /\
  ((rf_pwr = RF_PWR_NEG_18DBM \/ rf_pwr = RF_PWR_NEG_12DBM \/ rf_pwr = RF_PWR_NEG_6DBM) ->
     exists rsp1 rsp2 rf_setup,
       bus s = rsp1 :: rsp2 :: bus s' /\ drv s' = drv s /\
       r = (if r_ok rsp2 then SPI_MNGR_OK else ERROR) /\
       trace s' = SpiDeinit :: Xfer [Z.lor (Z.land REGISTER_MASK RF_SETUP) W_REGISTER; rf_setup] ::
                  Xfer [RF_SETUP; NOP] :: SpiInit :: trace s /\
       (forall k, 0 <= k < 8 ->
          Z.testbit rf_setup k = if (k =? 3) || (k =? 5) then Z.testbit (nth 1 (r_rx rsp1) 0) k
                                 else Z.testbit rf_pwr k)) /\
  (~ (rf_pwr = RF_PWR_NEG_18DBM \/ rf_pwr = RF_PWR_NEG_12DBM \/ rf_pwr = RF_PWR_NEG_6DBM) ->
     r = ERROR /\ s' = {| drv := drv s; trace := SpiDeinit :: SpiInit :: trace s; bus := bus s |}).
Proof.
  intros s rf_pwr.
  step_eq.
  exact (rf_power_keeps_data_rate rf_pwr s _ _ E).
Defined.

Lemma is_packet_reports_rx_only_witness :
  let s := st0 (poll_resps 0x42) in
  exists r p s', nrf_driver_is_packet s = Some ((r, p), s') /\
  exists rsp rest, bus s = rsp :: rest /\
    (let v := u8 (nth 1 (r_rx rsp) 0) in
     r = (if Z.testbit v STATUS_RX_DR && negb (Z.testbit v STATUS_TX_DS)
             && negb (Z.testbit v STATUS_MAX_RT) then NRF_MNGR_OK else ERROR) /\
     p = (if Z.testbit v STATUS_RX_DR
          then Some (Z.land (Z.shiftr v STATUS_RX_P_NO) STATUS_RX_P_NO_MASK) else None) /\
     drv s' = drv s /\
     trace s' = SpiDeinit :: irq_events v ++ SpiInit :: trace s).
Proof.
  intros s.
  step_eq.
  exact (is_packet_reports_rx_only s _ _ _ E).
Defined.

Lemma standby_mode_clears_prim_rx_witness :
  let s := {| drv := with_mode nrf_driver_init RX_MODE; trace := []; bus := [ok_resp [0; 0x0F]; ok_resp [0; 0]] |} in
  exists r s', nrf_driver_standby_mode s = Some (r, s') /\
  r = NRF_MNGR_OK /\
  (mode (drv s) = RX_MODE ->
     exists rsp1 rsp2 config,
       bus s = rsp1 :: rsp2 :: bus s' /\ drv s' = with_mode (drv s) STANDBY_I /\
       trace s' = SpiDeinit :: SleepUs 130 :: CE false ::
                  Xfer [Z.lor (Z.land REGISTER_MASK CONFIG) W_REGISTER; config] ::
                  Xfer [CONFIG; NOP] :: SpiInit :: trace s /\
       (forall k, 0 <= k < 8 ->
          Z.testbit config k = if k =? CONFIG_PRIM_RX then false
                               else Z.testbit (nth 1 (r_rx rsp1) 0) k)) /\
  (mode (drv s) <> RX_MODE ->
     s' = {| drv := drv s; trace := SpiDeinit :: SpiInit :: trace s; bus := bus s |}).
Proof.
  intros s.
  step_eq.
  exact (standby_mode_clears_prim_rx s _ _ E).
Defined.

Lemma receiver_mode_sets_prim_rx_witness :
  let s := st0 [ok_resp [0; 0x0E]; ok_resp [0; 0]] in
  exists r s', nrf_driver_receiver_mode s = Some (r, s') /\
  exists rsp1 rest, bus s = rsp1 :: rest /\
    (let config := nth 1 (r_rx rsp1) 0 in
     let p0 := if is_rx_addr_p0 (drv s)
               then [Xfer (Z.lor (Z.land REGISTER_MASK RX_ADDR_P0) W_REGISTER
                           :: firstn (address_width_bytes (drv s)) (rx_addr_p0 (drv s)))]
               else [] in
     drv s' = with_mode (drv s) RX_MODE /\
     (Z.testbit config CONFIG_PRIM_RX = true ->
        r = NRF_MNGR_OK /\
        trace s' = SpiDeinit :: SleepUs 130 :: CE true :: p0 ++ Xfer [CONFIG; NOP] :: SpiInit :: trace s) /\
     (Z.testbit config CONFIG_PRIM_RX = false ->
        exists rsp2 config', hd_error rest = Some rsp2 /\
          r = (if r_ok rsp2 then SPI_MNGR_OK else ERROR) /\
          (forall k, 0 <= k < 8 ->
             Z.testbit config' k = if k =? CONFIG_PRIM_RX then true else Z.testbit config k) /\
          trace s' = SpiDeinit :: SleepUs 130 :: CE true :: p0 ++
                     Xfer [Z.lor (Z.land REGISTER_MASK CONFIG) W_REGISTER; config'] ::
                     Xfer [CONFIG; NOP] :: SpiInit :: trace s)).
Proof.
  intros s.
  step_eq.
  exact (receiver_mode_sets_prim_rx s _ _ E).
Defined.

Lemma rx_destination_status_witness :
  let s := st0 [ok_resp [0; 0]; ok_resp [0; 0x03]; ok_resp [0; 0]] in
  let data_pipe := 3 in
  0 <= data_pipe /\
  exists r s', nrf_driver_rx_destination data_pipe [7; 8; 9] s = Some (r, s') /\
  (data_pipe <> DATA_PIPE_0 -> drv s' = drv s) /\
  (ALL_DATA_PIPES <= data_pipe ->
     r = ERROR /\ bus s' = bus s /\ trace s' = SpiDeinit :: SpiInit :: trace s) /\
  (data_pipe < ALL_DATA_PIPES ->
     exists rsp1 rsp2 rest, bus s = rsp1 :: rsp2 :: rest /\
       (let en_rxaddr := nth 1 (r_rx rsp2) 0 in
        (Z.testbit en_rxaddr data_pipe = true ->
           r = (if r_ok rsp1 then SPI_MNGR_OK else ERROR) /\ bus s' = rest) /\
        (Z.testbit en_rxaddr data_pipe = false ->
           exists rsp3 en' tr, rest = rsp3 :: bus s' /\
             r = (if r_ok rsp3 then SPI_MNGR_OK else ERROR) /\
             (forall k, 0 <= k < 8 ->
                Z.testbit en' k = if k =? data_pipe then true else Z.testbit en_rxaddr k) /\
             trace s' = SpiDeinit :: Xfer [Z.lor (Z.land REGISTER_MASK EN_RXADDR) W_REGISTER; en'] ::
                        Xfer [EN_RXADDR; NOP] :: tr))).
Proof.
  intros s data_pipe.
  assert (P1 : 0 <= data_pipe) by (unfold data_pipe; lia).
  split; [exact P1 |].
  step_eq.
  exact (rx_destination_status data_pipe [7; 8; 9] s _ _ P1 E).
Defined.

Lemma tx_destination_same_address_witness :
  let s := st0 [ok_resp [0; 0]; ok_resp [0; 0]] in
  let buffer := [1; 2; 3; 4; 5] in
  exists r s', nrf_driver_tx_destination buffer s = Some (r, s') /\
  let a := firstn (address_width_bytes (drv s)) buffer in
  drv s' = drv s /\
  exists rsp1 rest, bus s = rsp1 :: rest /\
    (r_ok rsp1 = true ->
       exists rsp2, rest = rsp2 :: bus s' /\ r = (if r_ok rsp2 then SPI_MNGR_OK else ERROR) /\
         trace s' = SpiDeinit :: Xfer (Z.lor (Z.land REGISTER_MASK TX_ADDR) W_REGISTER :: a) ::
                    Xfer (Z.lor (Z.land REGISTER_MASK RX_ADDR_P0) W_REGISTER :: a) ::
                    SpiInit :: trace s) /\
    (r_ok rsp1 = false ->
       r = ERROR /\ bus s' = rest /\
       trace s' = SpiDeinit :: Xfer (Z.lor (Z.land REGISTER_MASK RX_ADDR_P0) W_REGISTER :: a) ::
                  SpiInit :: trace s).
Proof.
  intros s buffer.
  step_eq.
  exact (tx_destination_same_address buffer s _ _ E).
Defined.

Lemma payload_size_all_pipes_witness :
  let s := st0 (repeat (ok_resp [0; 0]) 6) in
  let size := 4 in
  0 < size <= MAX_BYTES /\
  exists r s', nrf_driver_payload_size ALL_DATA_PIPES size s = Some (r, s') /\
  exists k, (1 <= k <= 6)%nat /\ (k <= length (bus s))%nat /\
    bus s' = skipn k (bus s) /\
    Forall (fun x => r_ok x = true) (firstn (k - 1) (bus s)) /\
    r = (if r_ok (nth (k - 1) (bus s) (ok_resp [])) then SPI_MNGR_OK else ERROR) /\
    ((k < 6)%nat -> r = ERROR) /\
    drv s' = drv s /\
    trace s' = SpiDeinit ::
               rev (map (fun reg => Xfer [Z.lor (Z.land REGISTER_MASK reg) W_REGISTER; u8 size])
                        (firstn k rx_pw_registers)) ++ SpiInit :: trace s.
Proof.
  intros s size.
  assert (P1 : 0 < size <= MAX_BYTES) by (unfold size, MAX_BYTES; lia).
  split; [exact P1 |].
  step_eq.
  exact (payload_size_all_pipes size s _ _ P1 E).
Defined.

Lemma read_packet_static_witness :
  let s := st0 [ok_resp [0; 10; 20; 30]] in
  let rx_packet := [1; 2; 3; 4] in
  let size := 3%nat in
  dyn_payloads (user_config (drv s)) = 0 /\
  exists r buf' s', nrf_driver_read_packet rx_packet size s = Some ((r, buf'), s') /\
  exists rsp, bus s = rsp :: bus s' /\ drv s' = drv s /\
    r = (if r_ok rsp then SPI_MNGR_OK else ERROR) /\
    trace s' = SpiDeinit :: Xfer (R_RX_PAYLOAD :: repeat NOP size) :: SpiInit :: trace s /\
    firstn size buf' = map (fun i => u8 (nth (S i) (r_rx rsp) 0)) (seq 0 size) /\
    skipn size buf' = skipn size rx_packet.
Proof.
  intros s rx_packet size.
  assert (P1 : dyn_payloads (user_config (drv s)) = 0) by (reflexivity).
  split; [exact P1 |].
  step_eq.
  exact (read_packet_static rx_packet size s _ _ _ P1 E).
Defined.

Lemma initialise_stores_config_witness :
  let s := st0 (repeat (ok_resp [0; 0]) 20) in
  let c := default_config in
  validate_config c = NRF_MNGR_OK /\
  exists r s', nrf_driver_initialise (Some c) s = Some (r, s') /\
  user_config (drv s') = c /\
  address_width_bytes (drv s') = Z.to_nat (address_width c + 2) /\
  mode (drv s') = mode (drv s) /\
  is_rx_addr_p0 (drv s') = is_rx_addr_p0 (drv s) /\
  rx_addr_p0 (drv s') = rx_addr_p0 (drv s) /\
  exists writes,
    trace s' = SpiDeinit :: SleepUs 2 :: WriteOnly [FLUSH_RX] :: SleepUs 2 ::
               SleepUs 2 :: WriteOnly [FLUSH_TX] :: SleepUs 2 ::
               writes ++ SleepMs 1 :: CE false :: SleepMs 100 :: SpiInit :: trace s.
Proof.
  intros s c.
  assert (P1 : validate_config c = NRF_MNGR_OK) by (vm_compute; reflexivity).
  split; [exact P1 |].
  step_eq.
  exact (initialise_stores_config c s _ _ P1 E).
Defined.

Lemma send_packet_frames_payload_witness :
  let s := st0 (ok_resp [0] :: poll_resps 0x00 ++ poll_resps 0x20) in
  let tx_packet := [1; 2; 3] in
  let size := 3%nat in
  exists r s', nrf_driver_send_packet tx_packet size s = Some (r, s') /\
  mode (drv s') = STANDBY_I /\
  exists vs pre, vs <> [] /\
    trace s' = SpiDeinit :: flat_map irq_events vs ++ CE false :: SleepUs 15 ::
               Xfer (W_TX_PAYLOAD :: firstn size tx_packet) :: CE true :: SpiInit ::
               pre ++ trace s /\
    (mode (drv s) <> RX_MODE -> pre = []).
Proof.
  intros s tx_packet size.
  step_eq.
  exact (send_packet_frames_payload tx_packet size s _ _ E).
Defined.

Lemma dyn_payloads_enable_noop_witness :
  let s := {| drv := with_config nrf_driver_init (set_dyn_payloads default_config DYNPD_ENABLE);
              trace := []; bus := [] |} in
  dyn_payloads (user_config (drv s)) <> DYNPD_DISABLE /\
  nrf_driver_dyn_payloads_enable s =
    Some (SPI_MNGR_OK, {| drv := drv s; trace := SpiDeinit :: SpiInit :: trace s; bus := bus s |}).
Proof.
  intros s.
  assert (P1 : dyn_payloads (user_config (drv s)) <> DYNPD_DISABLE) by (vm_compute; discriminate).
  split; [exact P1 |].
  exact (dyn_payloads_enable_noop s P1).
Defined.

Lemma dyn_payloads_disable_noop_witness :
  let s := st0 [] in
  dyn_payloads (user_config (drv s)) <> DYNPD_ENABLE /\
  nrf_driver_dyn_payloads_disable s =
    Some (NRF_MNGR_OK, {| drv := drv s; trace := SpiDeinit :: SpiInit :: trace s; bus := bus s |}).
Proof.
  intros s.
  assert (P1 : dyn_payloads (user_config (drv s)) <> DYNPD_ENABLE) by (vm_compute; discriminate).
  split; [exact P1 |].
  exact (dyn_payloads_disable_noop s P1).
Defined.

Lemma initialise_rejects_witness :
  let s := st0 [] in
  let cfg := Some (set_dyn_payloads default_config 0x01) in
  (match cfg with None => True | Some c => validate_config c = ERROR end) /\
  nrf_driver_initialise cfg s =
    Some (ERROR, {| drv := drv s;
                    trace := SpiDeinit :: SleepMs 1 :: CE false :: SleepMs 100 :: SpiInit :: trace s;
                    bus := bus s |}).
Proof.
  intros s cfg.
  assert (P1 : match cfg with None => True | Some c => validate_config c = ERROR end)
    by (vm_compute; reflexivity).
  split; [exact P1 |].
  exact (initialise_rejects cfg s P1).
Defined.

Lemma p0_cache_untouched_witness :
  3 <> DATA_PIPE_0 /\ keeps (nrf_driver_rx_destination 3 [1; 2; 3]).
Proof.
  assert (P1 : 3 <> DATA_PIPE_0) by (unfold DATA_PIPE_0; lia).
  split; [exact P1 |].
  exact (proj1 p0_cache_untouched 3 [1; 2; 3] P1).
Defined.


Lemma send_packet_stops_on_rx_dr_witness :
  let rsp := ok_resp [0] in
  let s := st0 (rsp :: flat_map poll_resps ([0x00] ++ [0x40]) ++ poll_resps 0x20) in
  mode (drv s) <> RX_MODE /\
  r_ok rsp = true /\
  Forall (fun w => irq_classify (u8 w) = NONE_ASSERTED) [0x00] /\
  irq_classify (u8 0x40) = RX_DR_ASSERTED /\
  bus s = rsp :: flat_map poll_resps ([0x00] ++ [0x40]) ++ poll_resps 0x20 /\
  exists s', nrf_driver_send_packet [1; 2] 2 s = Some (ERROR, s') /\ bus s' = poll_resps 0x20.
Proof.
  intros rsp s.
  assert (P1 : mode (drv s) <> RX_MODE) by discriminate.
  assert (P2 : r_ok rsp = true) by reflexivity.
  assert (P3 : Forall (fun w => irq_classify (u8 w) = NONE_ASSERTED) [0x00])
    by (repeat constructor).
  assert (P4 : irq_classify (u8 0x40) = RX_DR_ASSERTED) by reflexivity.
  assert (P5 : bus s = rsp :: flat_map poll_resps ([0x00] ++ [0x40]) ++ poll_resps 0x20)
    by reflexivity.
  split; [exact P1 | split; [exact P2 | split; [exact P3 | split; [exact P4 | split; [exact P5 |]]]]].
  exact (send_packet_stops_on_rx_dr [1; 2] 2 rsp [0x00] 0x40 (poll_resps 0x20) s P1 P2 P3 P4 P5).
Defined.
